(** * PropChain back end: the request-time security middleware

    A shallow embedding of [SecurityMiddleware] (its [use] pipeline and the
    private [getClientIp]) together with the properties its specification
    states about them.

    Strings are sequences of 8-bit code units: Node decodes header bytes as
    latin1, so every header value and every socket address is such a
    sequence, and [ascii] represents a code unit exactly. *)

From Stdlib Require Import String Ascii List ZArith Bool Arith Lia.
Import ListNotations.
Local Open Scope string_scope.

(** ** JavaScript string primitives used by the middleware *)

Module Js.

(** [String.prototype.trim] strips WhiteSpace and LineTerminator code units;
    below U+0100 these are TAB, LF, VT, FF, CR, SPACE and NBSP. *)
Definition isWhiteSpace (c : ascii) : bool :=
  let n := nat_of_ascii c in
  ((9 <=? n)%nat && (n <=? 13)%nat) || (n =? 32)%nat || (n =? 160)%nat.

Fixpoint trimStart (s : string) : string :=
  match s with
  | EmptyString => EmptyString
  | String c r => if isWhiteSpace c then trimStart r else s
  end.

Fixpoint trimEnd (s : string) : string :=
  match s with
  | EmptyString => EmptyString
  | String c r =>
      match trimEnd r with
      | EmptyString => if isWhiteSpace c then EmptyString else String c EmptyString
      | r' => String c r'
      end
  end.

Definition trim (s : string) : string := trimEnd (trimStart s).

(** [s.split(sep)] for a one-character separator: never an empty array. *)
Fixpoint split (sep : ascii) (s : string) : list string :=
  match s with
  | EmptyString => [EmptyString]
  | String c r =>
      if Ascii.eqb c sep then EmptyString :: split sep r
      else match split sep r with
           | [] => [String c EmptyString]
           | h :: t => String c h :: t
           end
  end.

(** Truthiness of a [string | undefined] operand: [undefined] and the empty
    string are falsy. *)
Definition truthy (x : option string) : bool :=
  match x with
  | None => false
  | Some EmptyString => false
  | Some _ => true
  end.

(** [a || b] on [string | undefined] operands. *)
Definition or (a b : option string) : option string :=
  if truthy a then a else b.

(** [a || 'literal']: the right operand is a string, so is the result. *)
Definition or_default (a : option string) (d : string) : string :=
  match a with
  | Some (String c r) => String c r
  | _ => d
  end.

(** [x?.f()] *)
Definition chain {A B : Type} (x : option A) (f : A -> B) : option B :=
  match x with
  | Some a => Some (f a)
  | None => None
  end.

(** [xs[0]] *)
Definition first {A : Type} (xs : list A) : option A := hd_error xs.

(** [String.prototype.toLowerCase] on 8-bit code units: the letters A to Z
    and the Latin-1 capitals U+00C0 to U+00DE (the multiplication sign
    U+00D7 excepted) move up by 32. *)
Definition lowerCase (c : ascii) : ascii :=
  let n := nat_of_ascii c in
  if (((65 <=? n) && (n <=? 90))
      || ((192 <=? n) && (n <=? 222) && negb (n =? 215)))%nat
  then ascii_of_nat (n + 32)
  else c.

Fixpoint toLowerCase (s : string) : string :=
  match s with
  | EmptyString => EmptyString
  | String c r => String (lowerCase c) (toLowerCase r)
  end.

End Js.

(** ** The request as the middleware reads it *)

(** A header value is [string | string[]] in Node's [IncomingHttpHeaders]. *)
Inductive HeaderValue : Type :=
| HSingle (s : string)
| HMulti (l : list string).

(** [value.toString()]: an array joins its elements with a comma. *)
Definition toString (v : HeaderValue) : string :=
  match v with
  | HSingle s => s
  | HMulti l => String.concat "," l
  end.

(** The three headers the middleware probes; [user-agent] is declared
    [string | undefined], the two proxy headers fall under the index
    signature [string | string[] | undefined]. *)
Record IncomingHttpHeaders : Type := mkHeaders {
  x_forwarded_for : option HeaderValue;
  x_real_ip : option HeaderValue;
  user_agent : option string
}.

Record Socket : Type := mkSocket {
  remoteAddress : option string
}.

Record Request : Type := mkRequest {
  headers : IncomingHttpHeaders;
  path : string;
  connection : option Socket;
  socket : option Socket
}.

(** ** [getClientIp] *)

(** [req.headers['x-forwarded-for']?.toString().split(',')[0]?.trim()] *)
Definition forwardedCandidate (req : Request) : option string :=
  match Js.chain (x_forwarded_for (headers req))
                 (fun v => Js.first (Js.split "," (toString v))) with
  | Some (Some entry) => Some (Js.trim entry)
  | _ => None
  end.

(** [req.headers['x-real-ip']?.toString()] *)
Definition realIpCandidate (req : Request) : option string :=
  Js.chain (x_real_ip (headers req)) toString.

(** [req.connection?.remoteAddress] *)
Definition connectionCandidate (req : Request) : option string :=
  match connection req with
  | Some c => remoteAddress c
  | None => None
  end.

(** [req.socket?.remoteAddress] *)
Definition socketCandidate (req : Request) : option string :=
  match socket req with
  | Some c => remoteAddress c
  | None => None
  end.

Definition getClientIp (req : Request) : string :=
  Js.or_default
    (Js.or (Js.or (Js.or (forwardedCandidate req) (realIpCandidate req))
                  (connectionCandidate req))
           (socketCandidate req))
    "unknown".

(** The requests of the repository's unit tests: headers given as plain
    strings, [connection] and [socket] objects always there. *)
Definition plainRequest (xff xri : option string) (conn sock : option string)
  : Request :=
  mkRequest (mkHeaders (Js.chain xff HSingle) (Js.chain xri HSingle) None)
            "/" (Some (mkSocket conn)) (Some (mkSocket sock)).

(** ** Collaborators of [SecurityMiddleware.use] *)

(** The middleware talks to three injected services, to the response, to its
    logger, to the clock and to [next]. The services are outside the
    sources at hand and are kept abstract: each call may change their state
    and may throw. [res.setHeader] throws on a name or value it does not
    accept. The logger, [res.status(..).json(..)] on a response nobody has
    answered yet and [next] (Express catches what downstream handlers throw
    and routes it to its error handling) return normally; what they do is
    recorded in the state of the run. *)

(** What a call into a collaborator yields once awaited: a value, or a thrown
    error (a rejected promise is thrown by the [await]). *)
Inductive Outcome (E A : Type) : Type :=
| Returned (a : A)
| Threw (e : E).
Arguments Returned {E A} a.
Arguments Threw {E A} e.

Module BlockCheck.
(** Modelled from the spec: the result type of
    [IpBlockingService.shouldBlockRequest], whose declaration is not part of
    the sources at hand: [{shouldBlock: bool, reason: string|none}]. *)
Record t : Type := make {
  shouldBlock : bool;
  reason : option string
}.
End BlockCheck.

Module Attack.
(** Modelled from the spec: the result type of
    [DdosProtectionService.monitorTraffic]:
    [{isAttack: bool, score: number, reason: string|none}]. The middleware
    reads [isAttack] only; the score is carried as an integer. *)
Record t : Type := make {
  isAttack : bool;
  score : Z;
  reason : option string
}.
End Attack.

(** The JSON body of a short-circuit response. A [reason] that is [undefined]
    is a missing field. *)
Module Body.
Record t : Type := make {
  statusCode : Z;
  message : string;
  reason : option string;
  timestamp : string
}.
End Body.

(** [req.security] *)
Module Security.
Record t : Type := make {
  clientIp : string;
  userAgent : string;
  timestamp : Z
}.
End Security.

(** The response as the middleware acts on it: the status code set by
    [res.status], the headers it carries and the body sent by [res.json].
    Node keeps one header per name, names compared in lower case, each with
    the name as it was last written. *)
Module Response.
Record t : Type := make {
  statusCode : Z;
  headers : list (string * string);
  sent : option Body.t
}.
Definition fresh : t := make 200 [] None.

(** The response keeps one header per name, names compared ignoring
    case. *)
Definition sameName (a b : string) : bool :=
  String.eqb (Js.toLowerCase a) (Js.toLowerCase b).

(** [headers[name.toLowerCase()] = [name, value]]: a header of that name is
    replaced where it stands, a new one comes last. *)
Fixpoint put (key value : string) (carried : list (string * string))
  : list (string * string) :=
  match carried with
  | [] => [(key, value)]
  | (k, v) :: rest =>
      if sameName k key then (key, value) :: rest
      else (k, v) :: put key value rest
  end.

(** The headers after a series of writes. *)
Definition putAll (entries carried : list (string * string))
  : list (string * string) :=
  fold_left (fun hs entry => put (fst entry) (snd entry) hs) entries carried.

Fixpoint get (name : string) (carried : list (string * string))
  : option string :=
  match carried with
  | [] => None
  | (k, v) :: rest => if sameName k name then Some v else get name rest
  end.

(** [res.getHeader(name)] *)
Definition getHeader (name : string) (r : t) : option string :=
  get name (headers r).
End Response.

(** The calls made into the three injected services, with their arguments
    in the order of the callee's parameters. *)
Inductive ServiceCall : Type :=
| CallShouldBlockRequest (clientIp userAgent path : string)
| CallMonitorTraffic (clientIp path userAgent : string)
| CallIsIpBlockedForDdos (clientIp : string)
| CallGetSecurityHeaders.

Definition isMonitorTraffic (c : ServiceCall) : bool :=
  match c with
  | CallMonitorTraffic _ _ _ => true
  | _ => false
  end.

(** What downstream handling finds when [next()] hands over to it. *)
Record Forwarded : Type := mkForwarded {
  seenSecurity : option Security.t;
  seenResponse : Response.t
}.

Section Middleware.

(** [W] is the state behind the injected services and the clock (block
    lists, traffic counters, time); [Err] is whatever may be thrown. *)
Variables W Err : Type.

Inductive LogEntry : Type :=
| LogWarn (msg : string)
| LogError (msg : string) (error : Err).

(** The environment of a run. The four service methods are stateful and may
    throw; [getSecurityHeaders] returns the header set as the list of its
    entries in [Object.entries] order. [res.setHeader] validates the name
    and value it is given and throws on a pair it does not accept
    ([rejectsHeader] gives the error). [clock] reads the time in
    milliseconds since the epoch and [toISOString] is
    [Date.prototype.toISOString]. *)
Record Env : Type := mkEnv {
  shouldBlockRequest :
    string -> string -> string -> W -> Outcome Err BlockCheck.t * W;
  monitorTraffic :
    string -> string -> string -> W -> Outcome Err Attack.t * W;
  isIpBlockedForDdos : string -> W -> Outcome Err bool * W;
  getSecurityHeaders : W -> Outcome Err (list (string * string)) * W;
  rejectsHeader : string -> string -> option Err;
  clock : W -> Z;
  toISOString : Z -> string
}.

Variable env : Env.

(** Everything a run of the middleware can change. *)
Record State : Type := mkState {
  world : W;
  res : Response.t;
  security : option Security.t;
  logged : list LogEntry;
  calls : list ServiceCall;
  forwarded : list Forwarded
}.

(** A computation that reads and writes the state and may throw; the state
    reached when it throws is kept, as effects are not undone by a throw. *)
Definition M (A : Type) : Type := State -> Outcome Err A * State.

Definition ret {A : Type} (a : A) : M A := fun s => (Returned a, s).

Definition bind {A B : Type} (m : M A) (k : A -> M B) : M B :=
  fun s =>
    match m s with
    | (Returned a, s') => k a s'
    | (Threw e, s') => (Threw e, s')
    end.

Definition tryCatch {A : Type} (body : M A) (handler : Err -> M A) : M A :=
  fun s =>
    match body s with
    | (Returned a, s') => (Returned a, s')
    | (Threw e, s') => handler e s'
    end.

Notation "x <- m ;; k" := (bind m (fun x => k))
  (at level 61, m at next level, right associativity).
Notation "m ;; k" := (bind m (fun _ => k))
  (at level 61, right associativity).

Definition withWorld (s : State) (w : W) (c : ServiceCall) : State :=
  mkState w (res s) (security s) (logged s) (calls s ++ [c]) (forwarded s).

(** [await this.<service>.<method>(args)] *)
Definition callService {A : Type} (c : ServiceCall)
  (method : W -> Outcome Err A * W) : M A :=
  fun s => let '(o, w) := method (world s) in (o, withWorld s w c).

Definition withRes (s : State) (r : Response.t) : State :=
  mkState (world s) r (security s) (logged s) (calls s) (forwarded s).

(** [res.status(code)] *)
Definition res_status (code : Z) : M unit :=
  fun s =>
    (Returned tt,
     withRes s (Response.make code (Response.headers (res s))
                              (Response.sent (res s)))).

(** [.json(body)] *)
Definition res_json (body : Body.t) : M unit :=
  fun s =>
    (Returned tt,
     withRes s (Response.make (Response.statusCode (res s))
                              (Response.headers (res s)) (Some body))).

(** [res.setHeader(key, value)] *)
Definition res_setHeader (key value : string) : M unit :=
  fun s =>
    match rejectsHeader env key value with
    | Some e => (Threw e, s)
    | None =>
        (Returned tt,
         withRes s (Response.make (Response.statusCode (res s))
                                  (Response.put key value
                                     (Response.headers (res s)))
                                  (Response.sent (res s))))
    end.

(** [entries.forEach(f)] *)
Fixpoint forEach {A : Type} (xs : list A) (f : A -> M unit) : M unit :=
  match xs with
  | [] => ret tt
  | x :: rest => f x ;; forEach rest f
  end.

Definition log (entry : LogEntry) : M unit :=
  fun s =>
    (Returned tt,
     mkState (world s) (res s) (security s) (logged s ++ [entry]) (calls s)
             (forwarded s)).

(** [this.logger.warn(msg)] and [this.logger.error(msg, error)] *)
Definition logger_warn (msg : string) : M unit := log (LogWarn msg).
Definition logger_error (msg : string) (error : Err) : M unit :=
  log (LogError msg error).

(** [Date.now()] *)
Definition Date_now : M Z := fun s => (Returned (clock env (world s)), s).

(** [new Date().toISOString()] *)
Definition Date_toISOString : M string :=
  fun s => (Returned (toISOString env (clock env (world s))), s).

(** [(req as any).security = ctx] *)
Definition setSecurity (ctx : Security.t) : M unit :=
  fun s =>
    (Returned tt,
     mkState (world s) (res s) (Some ctx) (logged s) (calls s) (forwarded s)).

(** [next()]: downstream handling takes over with the request and response
    as they are now. *)
Definition next : M unit :=
  fun s =>
    (Returned tt,
     mkState (world s) (res s) (security s) (logged s) (calls s)
             (forwarded s ++ [mkForwarded (security s) (res s)])).

(** A template literal prints [undefined] for a missing value. *)
Definition interpolate (x : option string) : string :=
  match x with
  | Some v => v
  | None => "undefined"
  end.

(** [res.status(code).json({statusCode, message, reason, timestamp})]: the
    receiver [res.status(code)] is evaluated before the argument, which
    reads the clock. *)
Definition respond (code : Z) (message : string) (reason : option string)
  : M unit :=
  res_status code ;;
  timestamp <- Date_toISOString ;;
  res_json (Body.make code message reason timestamp).

(** ** [SecurityMiddleware.use] *)

(** The body of the [try] block. *)
Definition use_try (req : Request) : M unit :=
  let clientIp := getClientIp req in
  let userAgent := Js.or_default (user_agent (headers req)) "" in
  let path := path req in
  blockCheck <- callService (CallShouldBlockRequest clientIp userAgent path)
                  (shouldBlockRequest env clientIp userAgent path) ;;
  if BlockCheck.shouldBlock blockCheck then
    logger_warn ("Blocked request from IP " ++ clientIp ++ ": "
                 ++ interpolate (BlockCheck.reason blockCheck)) ;;
    respond 403 "Access forbidden" (BlockCheck.reason blockCheck)
  else
    ddosCheck <- callService (CallMonitorTraffic clientIp path userAgent)
                   (monitorTraffic env clientIp path userAgent) ;;
    if Attack.isAttack ddosCheck then
      logger_warn ("DDoS attack detected from IP " ++ clientIp) ;;
      respond 429 "Too many requests" (Some "Potential DDoS attack detected")
    else
      blocked <- callService (CallIsIpBlockedForDdos clientIp)
                   (isIpBlockedForDdos env clientIp) ;;
      if (blocked : bool) then
        logger_warn ("Request blocked due to DDoS protection from IP "
                     ++ clientIp) ;;
        respond 429 "Too many requests"
                (Some "IP blocked due to DDoS protection")
      else
        securityHeaders <- callService CallGetSecurityHeaders
                             (getSecurityHeaders env) ;;
        forEach securityHeaders
                (fun entry => res_setHeader (fst entry) (snd entry)) ;;
        timestamp <- Date_now ;;
        setSecurity (Security.make clientIp userAgent timestamp) ;;
        next.

(** The [catch] block: fail open. *)
Definition use_catch (error : Err) : M unit :=
  logger_error "Security middleware error:" error ;;
  next.

Definition use (req : Request) : M unit :=
  tryCatch (use_try req) use_catch.

End Middleware.

Arguments mkEnv {W Err}.
Arguments mkState {W Err}.
Arguments world {W Err}.
Arguments res {W Err}.
Arguments security {W Err}.
Arguments logged {W Err}.
Arguments calls {W Err}.
Arguments forwarded {W Err}.
Arguments LogWarn {Err}.
Arguments LogError {Err}.
Arguments shouldBlockRequest {W Err}.
Arguments monitorTraffic {W Err}.
Arguments isIpBlockedForDdos {W Err}.
Arguments getSecurityHeaders {W Err}.
Arguments rejectsHeader {W Err}.
Arguments clock {W Err}.
Arguments toISOString {W Err}.
Arguments use {W Err}.
Arguments use_try {W Err}.
Arguments use_catch {W Err}.
Arguments forEach {W Err A}.
Arguments res_setHeader {W Err}.
Arguments ret {W Err A}.
Arguments bind {W Err A B}.
Arguments tryCatch {W Err A}.
Arguments withWorld {W Err}.
Arguments withRes {W Err}.
Arguments callService {W Err A}.
Arguments res_status {W Err}.
Arguments res_json {W Err}.
Arguments log {W Err}.
Arguments logger_warn {W Err}.
Arguments logger_error {W Err}.
Arguments Date_now {W Err}.
Arguments Date_toISOString {W Err}.
Arguments setSecurity {W Err}.
Arguments next {W Err}.
Arguments respond {W Err}.

(** The state a request meets on arrival: nothing logged, called or
    forwarded yet and no security context on the request. *)
Definition arrival {W Err : Type} (w : W) (r : Response.t) : State W Err :=
  mkState w r None [] [] [].

(** ** The pipeline in the specification's words *)

(** The service calls of a request that runs the whole pipeline, in the
    fixed order blocklist check, traffic monitor, ddos-block check, header
    set. *)
Definition pipeline (req : Request) : list ServiceCall :=
  let clientIp := getClientIp req in
  let userAgent := Js.or_default (user_agent (headers req)) "" in
  [ CallShouldBlockRequest clientIp userAgent (path req);
    CallMonitorTraffic clientIp (path req) userAgent;
    CallIsIpBlockedForDdos clientIp;
    CallGetSecurityHeaders ].

(** The stages that can raise. Client-IP identification is not among them:
    [getClientIp] is a total function. Header application raises either
    when the header set is read or when one header is written, some having
    been written before it. *)
Inductive Stage : Type :=
| BlocklistCheck
| TrafficMonitor
| DdosBlockCheck
| ReadHeaders
| WriteHeader (before : list (string * string)).

(** The headers already on the response when the stage raises. *)
Definition written (stage : Stage) : list (string * string) :=
  match stage with
  | WriteHeader before => before
  | _ => []
  end.

(** How many of the pipeline's service calls have been made by then. *)
Definition callsMade (stage : Stage) : nat :=
  match stage with
  | BlocklistCheck => 1
  | TrafficMonitor => 2
  | DdosBlockCheck => 3
  | ReadHeaders => 4
  | WriteHeader _ => 4
  end.

Definition accepts {W Err : Type} (env : Env W Err)
  (entry : string * string) : Prop :=
  rejectsHeader env (fst entry) (snd entry) = None.

(** [Raises env req s stage e]: started in [s], the pipeline gets as far as
    [stage], which raises [e]. *)
Inductive Raises {W Err : Type} (env : Env W Err) (req : Request)
  (s : State W Err) : Stage -> Err -> Prop :=
| RaisesBlocklistCheck e w1 :
    shouldBlockRequest env (getClientIp req)
      (Js.or_default (user_agent (headers req)) "") (path req) (world s)
    = (Threw e, w1) ->
    Raises env req s BlocklistCheck e
| RaisesTrafficMonitor e blockCheck w1 w2 :
    shouldBlockRequest env (getClientIp req)
      (Js.or_default (user_agent (headers req)) "") (path req) (world s)
    = (Returned blockCheck, w1) ->
    BlockCheck.shouldBlock blockCheck = false ->
    monitorTraffic env (getClientIp req) (path req)
      (Js.or_default (user_agent (headers req)) "") w1
    = (Threw e, w2) ->
    Raises env req s TrafficMonitor e
| RaisesDdosBlockCheck e blockCheck w1 ddosCheck w2 w3 :
    shouldBlockRequest env (getClientIp req)
      (Js.or_default (user_agent (headers req)) "") (path req) (world s)
    = (Returned blockCheck, w1) ->
    BlockCheck.shouldBlock blockCheck = false ->
    monitorTraffic env (getClientIp req) (path req)
      (Js.or_default (user_agent (headers req)) "") w1
    = (Returned ddosCheck, w2) ->
    Attack.isAttack ddosCheck = false ->
    isIpBlockedForDdos env (getClientIp req) w2 = (Threw e, w3) ->
    Raises env req s DdosBlockCheck e
| RaisesReadHeaders e blockCheck w1 ddosCheck w2 w3 w4 :
    shouldBlockRequest env (getClientIp req)
      (Js.or_default (user_agent (headers req)) "") (path req) (world s)
    = (Returned blockCheck, w1) ->
    BlockCheck.shouldBlock blockCheck = false ->
    monitorTraffic env (getClientIp req) (path req)
      (Js.or_default (user_agent (headers req)) "") w1
    = (Returned ddosCheck, w2) ->
    Attack.isAttack ddosCheck = false ->
    isIpBlockedForDdos env (getClientIp req) w2 = (Returned false, w3) ->
    getSecurityHeaders env w3 = (Threw e, w4) ->
    Raises env req s ReadHeaders e
| RaisesWriteHeader e blockCheck w1 ddosCheck w2 w3 w4 before key value rest :
    shouldBlockRequest env (getClientIp req)
      (Js.or_default (user_agent (headers req)) "") (path req) (world s)
    = (Returned blockCheck, w1) ->
    BlockCheck.shouldBlock blockCheck = false ->
    monitorTraffic env (getClientIp req) (path req)
      (Js.or_default (user_agent (headers req)) "") w1
    = (Returned ddosCheck, w2) ->
    Attack.isAttack ddosCheck = false ->
    isIpBlockedForDdos env (getClientIp req) w2 = (Returned false, w3) ->
    getSecurityHeaders env w3
    = (Returned (before ++ (key, value) :: rest)%list, w4) ->
    Forall (accepts env) before ->
    rejectsHeader env key value = Some e ->
    Raises env req s (WriteHeader before) e.

(** ** A concrete platform, for running the middleware on examples *)

Module Node.

(** [Date.prototype.toISOString] for a time in milliseconds since the epoch
    (proleptic Gregorian calendar, UTC). *)
Fixpoint digits (width : nat) (n : Z) : string :=
  match width with
  | O => EmptyString
  | S w =>
      digits w (n / 10)
      ++ String (ascii_of_nat (48 + Z.to_nat (n mod 10))) EmptyString
  end.

Definition civil (days : Z) : Z * Z * Z :=
  let z := (days + 719468)%Z in
  let era := (z / 146097)%Z in
  let doe := (z - era * 146097)%Z in
  let yoe := ((doe - doe / 1460 + doe / 36524 - doe / 146096) / 365)%Z in
  let doy := (doe - (365 * yoe + yoe / 4 - yoe / 100))%Z in
  let mp := ((5 * doy + 2) / 153)%Z in
  let d := (doy - (153 * mp + 2) / 5 + 1)%Z in
  let m := (if mp <? 10 then mp + 3 else mp - 9)%Z in
  let y := (yoe + era * 400 + (if m <=? 2 then 1 else 0))%Z in
  (y, m, d).

Definition toISOString (t : Z) : string :=
  let ms := (t mod 86400000)%Z in
  let '(y, m, d) := civil (t / 86400000) in
  let year :=
    if ((0 <=? y) && (y <=? 9999))%Z then digits 4 y
    else (if (y <? 0)%Z then "-" else "+") ++ digits 6 (Z.abs y) in
  year ++ "-" ++ digits 2 m ++ "-" ++ digits 2 d
  ++ "T" ++ digits 2 (ms / 3600000)
  ++ ":" ++ digits 2 (ms / 60000 mod 60)
  ++ ":" ++ digits 2 (ms / 1000 mod 60)
  ++ "." ++ digits 3 (ms mod 1000) ++ "Z".

(** [res.setHeader] accepts a name that is an HTTP token and a value made
    of TAB and the code units from SPACE on, DEL excepted. *)
Definition isTokenChar (c : ascii) : bool :=
  let n := nat_of_ascii c in
  (((48 <=? n) && (n <=? 57)) || ((65 <=? n) && (n <=? 90))
   || ((97 <=? n) && (n <=? 122))
   || existsb (Nat.eqb n) [33; 35; 36; 37; 38; 39; 42; 43; 45; 46; 94; 95;
                           96; 124; 126])%nat.

Definition isValueChar (c : ascii) : bool :=
  let n := nat_of_ascii c in
  ((n =? 9) || ((32 <=? n) && negb (n =? 127)))%nat.

Fixpoint all (p : ascii -> bool) (s : string) : bool :=
  match s with
  | EmptyString => true
  | String c r => p c && all p r
  end.

Definition rejectsHeader (name value : string) : option string :=
  match name with
  | EmptyString => Some "ERR_INVALID_HTTP_TOKEN"
  | _ =>
      if negb (all isTokenChar name) then Some "ERR_INVALID_HTTP_TOKEN"
      else if negb (all isValueChar value) then Some "ERR_INVALID_CHAR"
      else None
  end.

(** Scripted services: each method answers as told for the client key it is
    given, and every call takes one millisecond of the clock [W = Z]. *)
Definition tick {A : Type} (o : Outcome string A) (w : Z)
  : Outcome string A * Z := (o, (w + 1)%Z).

Definition scripted
  (block : string -> Outcome string BlockCheck.t)
  (attack : string -> Outcome string Attack.t)
  (ddosBlocked : string -> Outcome string bool)
  (securityHeaders : Outcome string (list (string * string)))
  : Env Z string :=
  mkEnv (fun clientKey _ _ => tick (block clientKey))
        (fun clientKey _ _ => tick (attack clientKey))
        (fun clientKey => tick (ddosBlocked clientKey))
        (tick securityHeaders)
        rejectsHeader
        (fun w => w)
        toISOString.

(** An answer for one client key, another for everybody else. *)
Definition only {A : Type} (clientKey : string) (hit miss : A)
  : string -> A :=
  fun key => if String.eqb key clientKey then hit else miss.

Definition allow : Outcome string BlockCheck.t :=
  Returned (BlockCheck.make false None).
Definition calm : Outcome string Attack.t :=
  Returned (Attack.make false 0 None).
Definition someHeaders : list (string * string) :=
  [("X-Frame-Options", "DENY"); ("X-Content-Type-Options", "nosniff")].

(** A header set in which two keys differ in case only. *)
Definition doubledHeaders : list (string * string) :=
  [("X-Frame-Options", "DENY"); ("X-Content-Type-Options", "nosniff");
   ("x-frame-options", "SAMEORIGIN")].

(** A request as a browser behind a proxy sends it. *)
Definition proxied : Request :=
  mkRequest (mkHeaders (Some (HSingle "203.0.113.7, 10.0.0.1")) None
                       (Some "Mozilla/5.0"))
            "/api/properties" (Some (mkSocket (Some "10.0.0.1")))
            (Some (mkSocket (Some "10.0.0.1"))).

(** The same request without a [user-agent] header. *)
Definition anonymous : Request :=
  mkRequest (mkHeaders (Some (HSingle "203.0.113.7, 10.0.0.1")) None None)
            "/api/properties" (Some (mkSocket (Some "10.0.0.1")))
            (Some (mkSocket (Some "10.0.0.1"))).

(** The client 203.0.113.7 blocklisted, under attack detection, still
    auto-blocked, and let through. *)
Definition blocking : Env Z string :=
  scripted (only "203.0.113.7"
                 (Returned (BlockCheck.make true (Some "manual block"))) allow)
           (fun _ => calm) (fun _ => Returned false) (Returned someHeaders).
Definition attacked : Env Z string :=
  scripted (fun _ => allow)
           (only "203.0.113.7"
                 (Returned (Attack.make true 97 (Some "burst"))) calm)
           (fun _ => Returned false) (Returned someHeaders).
Definition autoBlocked : Env Z string :=
  scripted (fun _ => allow) (fun _ => calm)
           (only "203.0.113.7" (Returned true) (Returned false))
           (Returned someHeaders).
Definition passing : Env Z string :=
  scripted (fun _ => allow) (fun _ => calm) (fun _ => Returned false)
           (Returned someHeaders).
Definition doubled : Env Z string :=
  scripted (fun _ => allow) (fun _ => calm) (fun _ => Returned false)
           (Returned doubledHeaders).

(** Failing collaborators: the traffic monitor's store is unreachable; the
    header set cannot be read; the header set has a name that is not an
    HTTP token (a colon was left in it). *)
Definition monitorDown : Env Z string :=
  scripted (fun _ => allow) (fun _ => Threw "ECONNREFUSED")
           (fun _ => Returned false) (Returned someHeaders).
Definition headersDown : Env Z string :=
  scripted (fun _ => allow) (fun _ => calm) (fun _ => Returned false)
           (Threw "configuration unavailable").
Definition misconfigured : Env Z string :=
  scripted (fun _ => allow) (fun _ => calm) (fun _ => Returned false)
           (Returned [("X-Content-Type-Options", "nosniff");
                      ("X-Frame-Options:", "DENY")]).

(** Arrival at 2023-11-14T22:13:20.000Z with an untouched response. *)
Definition start : State Z string :=
  arrival 1700000000000%Z Response.fresh.

End Node.

(** ** Client-IP resolution in the specification's words *)

Module Spec.

(** The first entry of a comma-separated list: what precedes the first
    comma, the whole text when there is none. *)
Fixpoint firstEntry (s : string) : string :=
  match s with
  | EmptyString => EmptyString
  | String c r =>
      if Ascii.eqb c "," then EmptyString else String c (firstEntry r)
  end.

(** First match wins; a candidate that is missing or empty is no match, and
    the sentinel stands in when nothing matches. *)
Fixpoint firstMatch (candidates : list (option string)) : string :=
  match candidates with
  | [] => "unknown"
  | Some (String c r) :: _ => String c r
  | _ :: rest => firstMatch rest
  end.

(** The text of a header value: a repeated header reads as its values
    separated by commas. *)
Fixpoint commaSeparated (values : list string) : string :=
  match values with
  | [] => EmptyString
  | [v] => v
  | v :: rest => String.append v (String "," (commaSeparated rest))
  end.

Definition text (v : HeaderValue) : string :=
  match v with
  | HSingle s => s
  | HMulti l => commaSeparated l
  end.

(** The remote address of a socket that may be missing. *)
Definition address (s : option Socket) : option string :=
  match s with
  | Some (mkSocket a) => a
  | None => None
  end.

(** The candidates of the four sources, in precedence order, from the
    parts of a request: the first entry of the forwarded-for list without
    its surrounding white space, the real-ip text, the connection's remote
    address, the socket's remote address. *)
Definition candidates (xff xri : option HeaderValue)
  (conn sock : option Socket) : list (option string) :=
  [ option_map (fun v => Js.trim (firstEntry (text v))) xff;
    option_map text xri;
    address conn;
    address sock ].

(** A candidate that is missing or empty is no match. *)
Definition noMatch (c : option string) : Prop :=
  c = None \/ c = Some EmptyString.

(** The four sources in precedence order, as found on the request. *)
Definition sources (req : Request) : list (option string) :=
  [ Js.chain (x_forwarded_for (headers req))
             (fun v => firstEntry (toString v));
    Js.chain (x_real_ip (headers req)) toString;
    connectionCandidate req;
    socketCandidate req ].

(** Resolution with each candidate trimmed and rejected if empty. *)
Definition resolveTrimmed (req : Request) : string :=
  firstMatch (map (fun c => Js.chain c Js.trim) (sources req)).


End Spec.

(** * The properties service

    [PropertiesService]: the address and status helpers, and the two
    operations that guard a write with a lookup, [updateStatus] and
    [remove]. *)

Module PropertiesService.

(** The members of the DTO's status enum, as the keys of [statusMap] show
    them. An argument that reaches the service from the HTTP layer may also
    be a value outside the enum. Such a value either names a member that
    [statusMap], an object literal, inherits from [Object.prototype]
    (['constructor'], ['toString'], ['__proto__'], ...), or it names nothing
    at all. An inherited member is a function or an object; [printed] is the
    text it converts to in a template literal. *)
Inductive DTOPropertyStatus : Type :=
| AVAILABLE
| PENDING
| SOLD
| RENTED.

Inductive StatusArg : Type :=
| Member (status : DTOPropertyStatus)
| Inherited (printed : string)
| Stray.

(** What [mapPropertyStatus] hands on as the target status: the name of a
    status, or the inherited object its argument named. *)
Inductive Target : Type :=
| Name (status : string)
| Object (printed : string).
Coercion Name : string >-> Target.

(** [`${targetStatus}`] *)
Definition render (targetStatus : Target) : string :=
  match targetStatus with
  | Name status => status
  | Object printed => printed
  end.

Definition statusMap (status : DTOPropertyStatus) : string :=
  match status with
  | AVAILABLE => "LISTED"
  | PENDING => "PENDING"
  | SOLD => "SOLD"
  | RENTED => "SOLD"
  end.

(** [statusMap[status] || 'DRAFT']: the lookup finds the entry of a member
    of the enum, or the inherited member (an object, so truthy), or
    nothing. *)
Definition mapPropertyStatus (status : StatusArg) : Target :=
  match status with
  | Member m => Name (Js.or_default (Some (statusMap m)) "DRAFT")
  | Inherited printed => Object printed
  | Stray => Name (Js.or_default None "DRAFT")
  end.

(** [object[key]] on an object literal, given as its entries in source
    order. It is used for [validTransitions[currentStatus]], where the key
    is the value of the database's status column: an upper-case word of the
    schema's enum, none of which is a name inherited from
    [Object.prototype]. *)
Fixpoint property {A : Type} (object : list (string * A)) (key : string)
  : option A :=
  match object with
  | [] => None
  | (k, v) :: rest => if String.eqb key k then Some v else property rest key
  end.

(** [xs.includes(x)] on an array of strings: an object equals none of
    them. *)
Definition includes (xs : list string) (x : Target) : bool :=
  match x with
  | Name x => existsb (String.eqb x) xs
  | Object _ => false
  end.

Definition validTransitions : list (string * list string) :=
  [ ("DRAFT", ["DRAFT"; "PENDING"; "APPROVED"]);
    ("PENDING", ["PENDING"; "APPROVED"; "DRAFT"]);
    ("APPROVED", ["APPROVED"; "LISTED"; "DRAFT"]);
    ("LISTED", ["LISTED"; "SOLD"; "REMOVED"]);
    ("SOLD", ["SOLD"]);
    ("REMOVED", ["REMOVED"; "DRAFT"]) ].

(** [validTransitions[currentStatus]?.includes(targetStatus) || false] *)
Definition isValidStatusTransition (currentStatus : string)
  (targetStatus : Target) : bool :=
  match Js.chain (property validTransitions currentStatus)
                 (fun targets => includes targets targetStatus) with
  | Some true => true
  | _ => false
  end.

(** The address of a DTO; a part may be missing or empty. *)
Record Address : Type := mkAddress {
  street : option string;
  city : option string;
  state : option string;
  postalCode : option string;
  country : option string
}.

(** [parts.filter(Boolean)] *)
Fixpoint filterBoolean (parts : list (option string)) : list string :=
  match parts with
  | [] => []
  | Some (String c r) :: rest => String c r :: filterBoolean rest
  | _ :: rest => filterBoolean rest
  end.

(** [parts.join(', ')] on strings *)
Definition join (sep : string) (parts : list string) : string :=
  String.concat sep parts.

Definition formatAddress (address : Address) : string :=
  join ", " (filterBoolean [street address; city address; state address;
                            postalCode address; country address]).

(** What the service may throw: the two HTTP exceptions it tells apart with
    [instanceof], and anything else. *)
Inductive Exn (Raw : Type) : Type :=
| NotFoundException (message : string)
| BadRequestException (message : string)
| Thrown (raw : Raw).
Arguments NotFoundException {Raw} message.
Arguments BadRequestException {Raw} message.
Arguments Thrown {Raw} raw.

(** The [data] of an update query: the columns to write. A column that is
    not named is left as it is. *)
Module Data.
Record t (Num Kind : Type) : Type := make {
  title : option string;
  description : option string;
  price : option Num;
  location : option string;
  status : option Target;
  bedrooms : option Num;
  bathrooms : option Num;
  squareFootage : option Num;
  propertyType : option Kind
}.
Arguments make {Num Kind}.
Arguments title {Num Kind}.
Arguments description {Num Kind}.
Arguments price {Num Kind}.
Arguments location {Num Kind}.
Arguments status {Num Kind}.
Arguments bedrooms {Num Kind}.
Arguments bathrooms {Num Kind}.
Arguments squareFootage {Num Kind}.
Arguments propertyType {Num Kind}.

(** [{ status: targetStatus }] *)
Definition ofStatus {Num Kind : Type} (targetStatus : Target) : t Num Kind :=
  make None None None None (Some targetStatus) None None None None.
End Data.

(** [UpdatePropertyDto]: every field may be left out. *)
Module Dto.
Record t (Num Kind : Type) : Type := make {
  title : option string;
  description : option string;
  price : option Num;
  address : option Address;
  status : option StatusArg;
  bedrooms : option Num;
  bathrooms : option Num;
  areaSqFt : option Num;
  type : option Kind
}.
Arguments make {Num Kind}.
Arguments title {Num Kind}.
Arguments description {Num Kind}.
Arguments price {Num Kind}.
Arguments address {Num Kind}.
Arguments status {Num Kind}.
Arguments bedrooms {Num Kind}.
Arguments bathrooms {Num Kind}.
Arguments areaSqFt {Num Kind}.
Arguments type {Num Kind}.
End Dto.

Section Service.

(** [DB] is the state of the database, [Property] a row of it, [Raw]
    whatever the database client throws, [Num] the numbers and [Kind] the
    property types a row holds. *)
Variables DB Property Raw Num Kind : Type.

(** The queries the operations send to [prisma.property]. *)
Inductive Query : Type :=
| FindUnique (id : string)
| Update (id : string) (data : Data.t Num Kind)
| Delete (id : string).

Inductive Entry : Type :=
| Log (message : string)
| Error (message : string) (error : Exn Raw).

(** [prisma.property]: each query may change the database and may throw;
    [property_findUnique] is [prisma.property.findUnique], which yields [null] for a missing row. [status] and [idOf] read
    [property.status] and [property.id]. *)
Record Prisma : Type := mkPrisma {
  property_findUnique : string -> DB -> Outcome (Exn Raw) (option Property) * DB;
  property_update : string -> Data.t Num Kind -> DB -> Outcome (Exn Raw) Property * DB;
  property_delete : string -> DB -> Outcome (Exn Raw) unit * DB;
  status : Property -> string;
  idOf : Property -> string
}.

Variable prisma : Prisma.

Record ServiceState : Type := mkServiceState {
  db : DB;
  queries : list Query;
  entries : list Entry
}.

Definition Op (A : Type) : Type :=
  ServiceState -> Outcome (Exn Raw) A * ServiceState.

Definition pure {A : Type} (a : A) : Op A := fun s => (Returned a, s).

Definition throw {A : Type} (e : Exn Raw) : Op A := fun s => (Threw e, s).

Definition andThen {A B : Type} (m : Op A) (k : A -> Op B) : Op B :=
  fun s =>
    match m s with
    | (Returned a, s') => k a s'
    | (Threw e, s') => (Threw e, s')
    end.

Definition catch {A : Type} (body : Op A) (handler : Exn Raw -> Op A)
  : Op A :=
  fun s =>
    match body s with
    | (Returned a, s') => (Returned a, s')
    | (Threw e, s') => handler e s'
    end.

Notation "x <- m ;; k" := (andThen m (fun x => k))
  (at level 61, m at next level, right associativity).
Notation "m ;; k" := (andThen m (fun _ => k))
  (at level 61, right associativity).

(** [await this.prisma.property.<query>(..)] *)
Definition send {A : Type} (q : Query)
  (run : DB -> Outcome (Exn Raw) A * DB) : Op A :=
  fun s =>
    let '(o, d) := run (db s) in
    (o, mkServiceState d (queries s ++ [q]) (entries s)).

Definition write (entry : Entry) : Op unit :=
  fun s =>
    (Returned tt, mkServiceState (db s) (queries s) (entries s ++ [entry])).

(** [this.logger.log(message)] and [this.logger.error(message, error)] *)
Definition logger_log (message : string) : Op unit := write (Log message).
Definition logger_error (message : string) (error : Exn Raw) : Op unit :=
  write (Error message error).

(** [update(id, updatePropertyDto)] *)
Definition update (id : string) (updatePropertyDto : Dto.t Num Kind)
  : Op Property :=
  catch
    (existingProperty <- send (FindUnique id) (property_findUnique prisma id) ;;
     match existingProperty with
     | None => throw (NotFoundException ("Property with ID " ++ id ++ " not found"))
     | Some _ =>
         let updateData :=
           Data.make (Dto.title updatePropertyDto)
                     (Dto.description updatePropertyDto)
                     (Dto.price updatePropertyDto)
                     (Js.chain (Dto.address updatePropertyDto) formatAddress)
                     (Js.chain (Dto.status updatePropertyDto) mapPropertyStatus)
                     (Dto.bedrooms updatePropertyDto)
                     (Dto.bathrooms updatePropertyDto)
                     (Dto.areaSqFt updatePropertyDto)
                     (Dto.type updatePropertyDto) in
         property <- send (Update id updateData)
                       (property_update prisma id updateData) ;;
         logger_log ("Property updated: " ++ idOf prisma property) ;;
         pure property
     end)
    (fun error =>
       match error with
       | NotFoundException _ | BadRequestException _ => throw error
       | Thrown _ =>
           logger_error ("Failed to update property " ++ id) error ;;
           throw (BadRequestException "Failed to update property")
       end).

(** [updateStatus(id, newStatus, userId?)] *)
Definition updateStatus (id : string) (newStatus : StatusArg)
  (userId : option string) : Op Property :=
  catch
    (property <- send (FindUnique id) (property_findUnique prisma id) ;;
     match property with
     | None => throw (NotFoundException ("Property with ID " ++ id ++ " not found"))
     | Some property =>
         let currentStatus := status prisma property in
         let targetStatus := mapPropertyStatus newStatus in
         if negb (isValidStatusTransition (status prisma property) targetStatus)
         then throw (BadRequestException
                       ("Invalid status transition from " ++ currentStatus
                        ++ " to " ++ render targetStatus))
         else
           updatedProperty <- send (Update id (Data.ofStatus targetStatus))
                                (property_update prisma id (Data.ofStatus targetStatus)) ;;
           logger_log ("Property status updated: " ++ id ++ " from "
                       ++ currentStatus ++ " to " ++ render targetStatus
                       ++ (if Js.truthy userId
                           then " by user " ++ interpolate userId
                           else "")) ;;
           pure updatedProperty
     end)
    (fun error =>
       match error with
       | NotFoundException _ | BadRequestException _ => throw error
       | Thrown _ =>
           logger_error ("Failed to update property status " ++ id) error ;;
           throw (BadRequestException "Failed to update property status")
       end).

(** [remove(id)] *)
Definition remove (id : string) : Op unit :=
  catch
    (existingProperty <- send (FindUnique id) (property_findUnique prisma id) ;;
     match existingProperty with
     | None => throw (NotFoundException ("Property with ID " ++ id ++ " not found"))
     | Some _ =>
         send (Delete id) (property_delete prisma id) ;;
         logger_log ("Property deleted: " ++ id)
     end)
    (fun error =>
       match error with
       | NotFoundException _ => throw error
       | _ =>
           logger_error ("Failed to delete property " ++ id) error ;;
           throw (BadRequestException "Failed to delete property")
       end).

End Service.

Arguments FindUnique {Num Kind}.
Arguments Update {Num Kind}.
Arguments Delete {Num Kind}.
Arguments mkPrisma {DB Property Raw Num Kind}.
Arguments property_findUnique {DB Property Raw Num Kind}.
Arguments property_update {DB Property Raw Num Kind}.
Arguments property_delete {DB Property Raw Num Kind}.
Arguments status {DB Property Raw Num Kind}.
Arguments idOf {DB Property Raw Num Kind}.
Arguments mkServiceState {DB Raw Num Kind}.
Arguments db {DB Raw Num Kind}.
Arguments queries {DB Raw Num Kind}.
Arguments entries {DB Raw Num Kind}.
Arguments Log {Raw}.
Arguments Error {Raw}.
Arguments update {DB Property Raw Num Kind}.
Arguments updateStatus {DB Property Raw Num Kind}.
Arguments remove {DB Property Raw Num Kind}.

(** The status a property has after a series of [updateStatus] calls, each
    served by a database that stores the status names it is told: a call
    whose transition is valid writes its target status, any other call
    leaves the row as it is, and so does a write of something that is no
    status name, which the database refuses. *)
Fixpoint statusAfter (currentStatus : string) (calls : list StatusArg)
  : string :=
  match calls with
  | [] => currentStatus
  | newStatus :: rest =>
      let targetStatus := mapPropertyStatus newStatus in
      if isValidStatusTransition currentStatus targetStatus
      then match targetStatus with
           | Name status => statusAfter status rest
           | Object _ => statusAfter currentStatus rest
           end
      else statusAfter currentStatus rest
  end.

(** An in-memory table of rows [(id, status)], for running the service: an
    update writes the status column when the query names it, and is
    refused, before the table is looked at, when the status it carries is
    not a string. *)
Definition Row : Type := (string * string)%type.

Fixpoint find (id : string) (rows : list Row) : option Row :=
  match rows with
  | [] => None
  | r :: rest => if String.eqb (fst r) id then Some r else find id rest
  end.

Fixpoint store (id status : string) (rows : list Row) : list Row :=
  match rows with
  | [] => []
  | r :: rest =>
      if String.eqb (fst r) id then (id, status) :: rest
      else r :: store id status rest
  end.

Fixpoint erase (id : string) (rows : list Row) : list Row :=
  match rows with
  | [] => []
  | r :: rest =>
      if String.eqb (fst r) id then rest else r :: erase id rest
  end.

Definition memory : Prisma (list Row) Row string Z string :=
  mkPrisma
    (fun id rows => (Returned (find id rows), rows))
    (fun id data rows =>
       match Data.status data with
       | Some (Object _) => (Threw (Thrown "PrismaClientValidationError"), rows)
       | written =>
           match find id rows with
           | Some r =>
               let status := match written with
                             | Some (Name status) => status
                             | _ => snd r
                             end in
               (Returned (id, status), store id status rows)
           | None => (Threw (Thrown "P2025"), rows)
           end
       end)
    (fun id rows =>
       match find id rows with
       | Some _ => (Returned tt, erase id rows)
       | None => (Threw (Thrown "P2025"), rows)
       end)
    snd
    fst.

Definition fresh (rows : list Row) : ServiceState (list Row) string Z string :=
  mkServiceState rows [] [].

(** A client calling [updateStatus] for one property again and again,
    whatever each call returns or throws. *)
Fixpoint updateStatusAll {DB Property Raw Num Kind : Type}
  (prisma : Prisma DB Property Raw Num Kind) (id : string)
  (calls : list StatusArg) (s : ServiceState DB Raw Num Kind)
  : ServiceState DB Raw Num Kind :=
  match calls with
  | [] => s
  | newStatus :: rest =>
      updateStatusAll prisma id rest
        (snd (updateStatus prisma id newStatus None s))
  end.

End PropertiesService.

(** * Properties *)

Local Open Scope list_scope.

(** ** String primitives *)

Lemma split_first (s : string) :
  Js.first (Js.split "," s) = Some (Spec.firstEntry s).
Proof.
  induction s as [|c r IH]; simpl; [reflexivity|].
  destruct (Ascii.eqb c ","); [reflexivity|].
  destruct (Js.split "," r) as [|h t]; simpl in *; [discriminate|].
  now inversion IH.
Qed.

Lemma trimEnd_idempotent (s : string) :
  Js.trimEnd (Js.trimEnd s) = Js.trimEnd s.
Proof.
  induction s as [|c r IH]; simpl; [reflexivity|].
  destruct (Js.trimEnd r) as [|c' r'] eqn:E.
  - destruct (Js.isWhiteSpace c) eqn:Hc; simpl; [reflexivity|].
    now rewrite Hc.
  - change (Js.trimEnd (String c (String c' r')))
      with (match Js.trimEnd (String c' r') with
            | EmptyString =>
                if Js.isWhiteSpace c then EmptyString else String c EmptyString
            | String a b => String c (String a b)
            end).
    now rewrite IH.
Qed.

Lemma trimEnd_keeps_head (c : ascii) (r : string) :
  Js.isWhiteSpace c = false ->
  exists r', Js.trimEnd (String c r) = String c r'.
Proof.
  intros Hc; simpl.
  destruct (Js.trimEnd r) as [|c' r']; [rewrite Hc|]; eauto.
Qed.

Lemma trimStart_head (s : string) :
  Js.trimStart s = EmptyString
  \/ exists c r, Js.trimStart s = String c r /\ Js.isWhiteSpace c = false.
Proof.
  induction s as [|c r IH]; simpl; [now left|].
  destruct (Js.isWhiteSpace c) eqn:Hc; [exact IH|].
  right; eauto.
Qed.

Lemma trim_idempotent (s : string) : Js.trim (Js.trim s) = Js.trim s.
Proof.
  unfold Js.trim.
  destruct (trimStart_head s) as [E | (c & r & E & Hc)]; rewrite E.
  - reflexivity.
  - destruct (trimEnd_keeps_head c r Hc) as [r' E'].
    assert (Hs : Js.trimStart (Js.trimEnd (String c r)) = Js.trimEnd (String c r)).
    { rewrite E'; simpl; now rewrite Hc. }
    rewrite Hs. apply trimEnd_idempotent.
Qed.

(** The forwarded-for candidate is the trimmed first entry of the header. *)
Lemma forwardedCandidate_spec (req : Request) :
  forwardedCandidate req
  = Js.chain (x_forwarded_for (headers req))
             (fun v => Js.trim (Spec.firstEntry (toString v))).
Proof.
  unfold forwardedCandidate.
  destruct (x_forwarded_for (headers req)) as [v|]; simpl; [|reflexivity].
  now rewrite split_first.
Qed.

Lemma or_default_or (a b : option string) (d : string) :
  Js.or_default (Js.or a b) d
  = match a with
    | Some (String c r) => String c r
    | _ => Js.or_default b d
    end.
Proof. now destruct a as [[|c r]|]. Qed.

Lemma getClientIp_firstMatch (req : Request) :
  getClientIp req
  = Spec.firstMatch [forwardedCandidate req; realIpCandidate req;
                     connectionCandidate req; socketCandidate req].
Proof.
  unfold getClientIp.
  destruct (forwardedCandidate req) as [[|c1 r1]|];
    destruct (realIpCandidate req) as [[|c2 r2]|];
    destruct (connectionCandidate req) as [[|c3 r3]|];
    destruct (socketCandidate req) as [[|c4 r4]|]; reflexivity.
Qed.

(** ** The repository's unit tests of [getClientIp] *)

Example getClientIp_forwarded :
  getClientIp (plainRequest (Some "192.168.1.1, 10.0.0.1") None None None)
  = "192.168.1.1".
Proof. reflexivity. Qed.

Example getClientIp_real_ip :
  getClientIp (plainRequest None (Some "192.168.1.2") None None) = "192.168.1.2".
Proof. reflexivity. Qed.

Example getClientIp_connection :
  getClientIp (plainRequest None None (Some "192.168.1.3") None) = "192.168.1.3".
Proof. reflexivity. Qed.

Example getClientIp_socket :
  getClientIp (plainRequest None None None (Some "192.168.1.4")) = "192.168.1.4".
Proof. reflexivity. Qed.

Example getClientIp_unknown :
  getClientIp (plainRequest None None None None) = "unknown".
Proof. reflexivity. Qed.

(** ** Client-IP resolution *)

Lemma text_toString (v : HeaderValue) : Spec.text v = toString v.
Proof.
  destruct v as [t|l]; [reflexivity|]. simpl.
  induction l as [|x [|y l] IH]; [reflexivity..|].
  change (String.concat "," (x :: y :: l))
    with (x ++ "," ++ String.concat "," (y :: l))%string.
  rewrite <- IH. reflexivity.
Qed.

Lemma candidates_of_request (req : Request) :
  [forwardedCandidate req; realIpCandidate req;
   connectionCandidate req; socketCandidate req]
  = Spec.candidates (x_forwarded_for (headers req)) (x_real_ip (headers req))
                    (connection req) (socket req).
Proof.
  rewrite forwardedCandidate_spec.
  unfold Spec.candidates, realIpCandidate, connectionCandidate,
    socketCandidate, Spec.address.
  destruct (x_forwarded_for (headers req)) as [v1|];
    destruct (x_real_ip (headers req)) as [v2|];
    destruct (connection req) as [[a1]|];
    destruct (socket req) as [[a2]|]; simpl;
    rewrite ?text_toString; reflexivity.
Qed.

Lemma firstMatch_skips (before : list (option string)) (rest : list (option string)) :
  Forall Spec.noMatch before ->
  Spec.firstMatch (before ++ rest) = Spec.firstMatch rest.
Proof.
  induction 1 as [|c before [-> | ->] _ IH]; simpl; auto.
Qed.

(** C5: the client IP is the first match among the four sources in the
    order forwarded-for first entry, real-ip header, connection remote
    address, socket remote address: a non-empty candidate is returned when
    every source before it is missing or empty, whatever the sources after
    it hold; and the sentinel "unknown" is returned when all four are
    missing or empty. The forwarded-for candidate is the first entry of the
    comma-separated header without its surrounding white space. *)
Theorem getClientIp_precedence (xff xri : option HeaderValue)
  (ua : option string) (p : string) (conn sock : option Socket) :
  (forall before c r after,
      Spec.candidates xff xri conn sock
      = before ++ Some (String c r) :: after ->
      Forall Spec.noMatch before ->
      getClientIp (mkRequest (mkHeaders xff xri ua) p conn sock)
      = String c r)
  /\ (Forall Spec.noMatch (Spec.candidates xff xri conn sock) ->
      getClientIp (mkRequest (mkHeaders xff xri ua) p conn sock)
      = "unknown").
Proof.
  split.
  - intros before c r after E Hb.
    rewrite getClientIp_firstMatch, candidates_of_request.
    cbn [headers x_forwarded_for x_real_ip connection socket].
    rewrite E, firstMatch_skips by exact Hb. reflexivity.
  - intros Hn.
    rewrite getClientIp_firstMatch, candidates_of_request.
    cbn [headers x_forwarded_for x_real_ip connection socket].
    rewrite <- (app_nil_r (Spec.candidates xff xri conn sock)).
    rewrite firstMatch_skips by exact Hn. reflexivity.
Qed.

(** The five cases of the precedence order, each with every lower source
    present: a forwarded-for list with white space around its first entry;
    a forwarded-for list whose first entry is blank, before a repeated
    real-ip header; an empty real-ip header before a connection address; a
    connection without an address before a socket address; nothing. *)
Lemma getClientIp_precedence_witness :
  getClientIp
    (mkRequest (mkHeaders (Some (HSingle " 192.168.1.1 , 10.0.0.1"))
                          (Some (HSingle "192.168.1.2")) None)
               "/" (Some (mkSocket (Some "192.168.1.3")))
               (Some (mkSocket (Some "192.168.1.4"))))
  = "192.168.1.1"
  /\ getClientIp
       (mkRequest (mkHeaders (Some (HSingle " , 10.0.0.1"))
                             (Some (HMulti ["192.168.1.2"; "10.0.0.2"])) None)
                  "/" (Some (mkSocket (Some "192.168.1.3")))
                  (Some (mkSocket (Some "192.168.1.4"))))
     = "192.168.1.2,10.0.0.2"
  /\ getClientIp
       (mkRequest (mkHeaders None (Some (HSingle "")) None)
                  "/" (Some (mkSocket (Some "192.168.1.3")))
                  (Some (mkSocket (Some "192.168.1.4"))))
     = "192.168.1.3"
  /\ getClientIp
       (mkRequest (mkHeaders None None None)
                  "/" (Some (mkSocket None))
                  (Some (mkSocket (Some "192.168.1.4"))))
     = "192.168.1.4"
  /\ getClientIp
       (mkRequest (mkHeaders (Some (HMulti [])) None None)
                  "/" None (Some (mkSocket (Some ""))))
     = "unknown".
Proof.
  split; [|split; [|split; [|split]]].
  - apply (proj1 (getClientIp_precedence _ _ _ _ _ _) []
             "1"%char "92.168.1.1"
             [Some "192.168.1.2"; Some "192.168.1.3"; Some "192.168.1.4"]).
    + reflexivity.
    + constructor.
  - apply (proj1 (getClientIp_precedence _ _ _ _ _ _) [Some ""]
             "1"%char "92.168.1.2,10.0.0.2"
             [Some "192.168.1.3"; Some "192.168.1.4"]).
    + reflexivity.
    + constructor; [right; reflexivity|constructor].
  - apply (proj1 (getClientIp_precedence _ _ _ _ _ _) [None; Some ""]
             "1"%char "92.168.1.3" [Some "192.168.1.4"]).
    + reflexivity.
    + constructor; [left; reflexivity|].
      constructor; [right; reflexivity|constructor].
  - apply (proj1 (getClientIp_precedence _ _ _ _ _ _) [None; None; None]
             "1"%char "92.168.1.4" []).
    + reflexivity.
    + repeat (constructor; [left; reflexivity|]). constructor.
  - apply (proj2 (getClientIp_precedence _ _ _ _ _ _)).
    constructor; [right; reflexivity|].
    repeat (constructor; [left; reflexivity|]).
    constructor; [right; reflexivity|constructor].
Defined.

(** C6, as stated, fails: a real-ip header that is blank is neither trimmed
    nor rejected, so resolution does not fall through to the connection's
    address as trimming every candidate would have it. *)
Lemma getClientIp_blank_real_ip :
  getClientIp (plainRequest None (Some " ") (Some "10.0.0.1") None) = " "
  /\ Spec.resolveTrimmed (plainRequest None (Some " ") (Some "10.0.0.1") None)
     = "10.0.0.1"
  /\ getClientIp (plainRequest None (Some " ") (Some "10.0.0.1") None)
     <> Spec.resolveTrimmed
          (plainRequest None (Some " ") (Some "10.0.0.1") None).
Proof. repeat split; vm_compute; discriminate. Qed.

(** C6, amended: the forwarded-for first entry is trimmed and rejected if
    empty after trimming, and resolution then falls through to the next
    source; the real-ip header, the connection address and the socket
    address are taken as they are, untrimmed, and are rejected, with
    fall-through, only when they are the empty string. *)
Theorem getClientIp_trimming (ua : option string) (p : string) :
  let R xff xri conn sock := mkRequest (mkHeaders xff xri ua) p conn sock in
  (forall v xri conn sock,
      let e := Js.trim (Spec.firstEntry (toString v)) in
      Js.trim e = e
      /\ (e <> "" -> getClientIp (R (Some v) xri conn sock) = e)
      /\ (e = "" -> getClientIp (R (Some v) xri conn sock)
                    = getClientIp (R None xri conn sock)))
  /\ (forall v conn sock,
      (toString v <> "" -> getClientIp (R None (Some v) conn sock) = toString v)
      /\ (toString v = "" -> getClientIp (R None (Some v) conn sock)
                             = getClientIp (R None None conn sock)))
  /\ (forall a sock,
      (a <> "" -> getClientIp (R None None (Some (mkSocket (Some a))) sock) = a)
      /\ (a = "" -> getClientIp (R None None (Some (mkSocket (Some a))) sock)
                    = getClientIp (R None None None sock)))
  /\ (forall a,
      (a <> "" -> getClientIp (R None None None (Some (mkSocket (Some a)))) = a)
      /\ (a = "" -> getClientIp (R None None None (Some (mkSocket (Some a))))
                    = "unknown")).
Proof.
  intros R; subst R; repeat split.
  - apply trim_idempotent.
  - intros He. rewrite getClientIp_firstMatch, forwardedCandidate_spec; simpl.
    destruct (Js.trim (Spec.firstEntry (toString v))); [now elim He|reflexivity].
  - intros He. rewrite !getClientIp_firstMatch, !forwardedCandidate_spec; simpl. now rewrite He.
  - intros Hv. rewrite getClientIp_firstMatch, forwardedCandidate_spec; simpl.
    destruct (toString v); [now elim Hv|reflexivity].
  - intros Hv. rewrite !getClientIp_firstMatch, !forwardedCandidate_spec; simpl. now rewrite Hv.
  - intros Ha. destruct a; [now elim Ha|reflexivity].
  - intros ->. reflexivity.
  - intros Ha. destruct a; [now elim Ha|reflexivity].
  - intros ->. reflexivity.
Qed.



(** ** The pipeline, path by path *)

Section Paths.

Variables W Err : Type.
Variable env : Env W Err.
Variable req : Request.

Local Abbreviation ip := (getClientIp req).
Local Abbreviation ua := (Js.or_default (user_agent (headers req)) "").

Ltac run :=
  unfold use, tryCatch, use_try, use_catch, respond, bind, callService,
    logger_warn, logger_error, log, res_status, res_json, Date_toISOString,
    Date_now, setSecurity, next, withWorld, withRes, ret;
  cbv zeta.

Ltac step H :=
  rewrite H;
  cbn [world res security logged calls forwarded Response.statusCode
       Response.headers Response.sent].

Lemma response_eta (r : Response.t) :
  Response.make (Response.statusCode r)
                (Response.putAll [] (Response.headers r))
                (Response.sent r) = r.
Proof. now destruct r. Qed.

Lemma putAll_app (l1 l2 carried : list (string * string)) :
  Response.putAll (l1 ++ l2) carried
  = Response.putAll l2 (Response.putAll l1 carried).
Proof. apply fold_left_app. Qed.

(** Writing a list of accepted headers writes them all. *)
Lemma forEach_accepted (hs : list (string * string)) (s : State W Err) :
  Forall (accepts env) hs ->
  forEach hs (fun entry => res_setHeader env (fst entry) (snd entry)) s
  = (Returned tt,
     withRes s (Response.make (Response.statusCode (res s))
                              (Response.putAll hs (Response.headers (res s)))
                              (Response.sent (res s)))).
Proof.
  revert s; induction hs as [|[k v] hs IH]; intros s Hall.
  - simpl. unfold ret, withRes. rewrite response_eta. now destruct s.
  - inversion Hall as [|? ? Hkv Hrest]; subst.
    unfold accepts in Hkv; simpl in Hkv.
    simpl. unfold bind, res_setHeader at 1. simpl. rewrite Hkv.
    rewrite IH by assumption.
    reflexivity.
Qed.

(** Writing stops at the first header that is rejected; those before it
    stay written. *)
Lemma forEach_rejected (before rest : list (string * string))
  (k v : string) (e : Err) (s : State W Err) :
  Forall (accepts env) before ->
  rejectsHeader env k v = Some e ->
  forEach (before ++ (k, v) :: rest)
          (fun entry => res_setHeader env (fst entry) (snd entry)) s
  = (Threw e,
     withRes s (Response.make (Response.statusCode (res s))
                              (Response.putAll before
                                 (Response.headers (res s)))
                              (Response.sent (res s)))).
Proof.
  revert s; induction before as [|[k0 v0] before IH]; intros s Hall Hkv.
  - simpl. unfold bind, res_setHeader at 1. simpl. rewrite Hkv.
    unfold withRes. rewrite response_eta. now destruct s.
  - inversion Hall as [|? ? H0 Hrest]; subst.
    unfold accepts in H0; simpl in H0.
    simpl. unfold bind, res_setHeader at 1. simpl. rewrite H0.
    rewrite IH by assumption.
    reflexivity.
Qed.

(** Every header is accepted, or there is a first one that is not. *)
Lemma accepted_or_rejected (hs : list (string * string)) :
  Forall (accepts env) hs
  \/ exists before k v rest e,
       hs = (before ++ (k, v) :: rest)%list
       /\ Forall (accepts env) before
       /\ rejectsHeader env k v = Some e.
Proof.
  induction hs as [|[k v] hs IH]; [now left|].
  destruct (rejectsHeader env k v) as [e|] eqn:Hkv.
  - right. exists [], k, v, hs, e. auto.
  - destruct IH as [Hall | (before & k' & v' & rest & e & -> & Hb & Hr)].
    + left. constructor; assumption.
    + right. exists ((k, v) :: before), k', v', rest, e.
      repeat split; auto.
Qed.

(** The state in which a raising stage leaves the [try] block: the calls up
    to that stage made, the headers before the failing one written, nothing
    else touched. *)
Lemma use_try_raises (s : State W Err) (stage : Stage) (e : Err) :
  Raises env req s stage e ->
  exists w,
    use_try env req s
    = (Threw e,
       mkState w
         (Response.make (Response.statusCode (res s))
                        (Response.putAll (written stage)
                           (Response.headers (res s)))
                        (Response.sent (res s)))
         (security s) (logged s)
         (calls s ++ firstn (callsMade stage) (pipeline req)) (forwarded s)).
Proof.
  intros HR.
  destruct HR as [e w1 H1
                 | e bc w1 w2 H1 Hb H2
                 | e bc w1 ad w2 w3 H1 Hb H2 Ha H3
                 | e bc w1 ad w2 w3 w4 H1 Hb H2 Ha H3 H4
                 | e bc w1 ad w2 w3 w4 before k v rest H1 Hb H2 Ha H3 H4 Hall Hkv].
  - exists w1. run. step H1.
    now rewrite response_eta.
  - exists w2. run. step H1. step Hb. step H2.
    now rewrite response_eta, <- app_assoc.
  - exists w3. run. step H1. step Hb. step H2. step Ha. step H3.
    now rewrite response_eta, <- !app_assoc.
  - exists w4. run. step H1. step Hb. step H2. step Ha. step H3. step H4.
    now rewrite response_eta, <- !app_assoc.
  - exists w4. run. step H1. step Hb. step H2. step Ha. step H3. step H4.
    rewrite (forEach_rejected before rest k v e _ Hall Hkv).
    unfold withRes; simpl. now rewrite <- !app_assoc.
Qed.

(** [try]/[catch]: a returning [try] block is the result, a raising one is
    followed by the error log and [next()]. *)
Lemma use_of_try (s : State W Err) :
  use env req s
  = match use_try env req s with
    | (Returned a, s') => (Returned a, s')
    | (Threw e, s') =>
        (Returned tt,
         mkState (world s') (res s') (security s')
                 (logged s' ++ [LogError "Security middleware error:" e])
                 (calls s')
                 (forwarded s' ++ [mkForwarded (security s') (res s')]))
    end.
Proof. reflexivity. Qed.

Lemma use_returns (s s' : State W Err) :
  use_try env req s = (Returned tt, s') ->
  use env req s = (Returned tt, s').
Proof. intros E. now rewrite use_of_try, E. Qed.

Lemma use_raises (s : State W Err) (stage : Stage) (e : Err) :
  Raises env req s stage e ->
  exists w,
    use env req s
    = (Returned tt,
       mkState w
         (Response.make (Response.statusCode (res s))
                        (Response.putAll (written stage)
                           (Response.headers (res s)))
                        (Response.sent (res s)))
         (security s)
         (logged s ++ [LogError "Security middleware error:" e])
         (calls s ++ firstn (callsMade stage) (pipeline req))
         (forwarded s
          ++ [mkForwarded (security s)
                (Response.make (Response.statusCode (res s))
                               (Response.putAll (written stage)
                           (Response.headers (res s)))
                               (Response.sent (res s)))])).
Proof.
  intros HR. destruct (use_try_raises s stage e HR) as (w & E).
  exists w. rewrite use_of_try, E. reflexivity.
Qed.

(** Blocklist hit. *)
Lemma use_try_blocklist_hit (s : State W Err) blockCheck w1 :
  shouldBlockRequest env ip ua (path req) (world s)
  = (Returned blockCheck, w1) ->
  BlockCheck.shouldBlock blockCheck = true ->
  use_try env req s
  = (Returned tt,
     mkState w1
       (Response.make 403 (Response.headers (res s))
          (Some (Body.make 403 "Access forbidden"
                   (BlockCheck.reason blockCheck)
                   (toISOString env (clock env w1)))))
       (security s)
       (logged s
        ++ [LogWarn ("Blocked request from IP " ++ ip ++ ": "
                     ++ interpolate (BlockCheck.reason blockCheck))])
       (calls s ++ firstn 1 (pipeline req)) (forwarded s)).
Proof.
  intros H1 Hb. run. step H1. step Hb. reflexivity.
Qed.

(** Traffic-monitor attack. *)
Lemma use_try_attack (s : State W Err) blockCheck w1 ddosCheck w2 :
  shouldBlockRequest env ip ua (path req) (world s)
  = (Returned blockCheck, w1) ->
  BlockCheck.shouldBlock blockCheck = false ->
  monitorTraffic env ip (path req) ua w1 = (Returned ddosCheck, w2) ->
  Attack.isAttack ddosCheck = true ->
  use_try env req s
  = (Returned tt,
     mkState w2
       (Response.make 429 (Response.headers (res s))
          (Some (Body.make 429 "Too many requests"
                   (Some "Potential DDoS attack detected")
                   (toISOString env (clock env w2)))))
       (security s)
       (logged s ++ [LogWarn ("DDoS attack detected from IP " ++ ip)])
       (calls s ++ firstn 2 (pipeline req)) (forwarded s)).
Proof.
  intros H1 Hb H2 Ha. run. step H1. step Hb. step H2. step Ha.
  now rewrite <- app_assoc.
Qed.

(** Auto-block hit. *)
Lemma use_try_ddos_blocked (s : State W Err) blockCheck w1 ddosCheck w2 w3 :
  shouldBlockRequest env ip ua (path req) (world s)
  = (Returned blockCheck, w1) ->
  BlockCheck.shouldBlock blockCheck = false ->
  monitorTraffic env ip (path req) ua w1 = (Returned ddosCheck, w2) ->
  Attack.isAttack ddosCheck = false ->
  isIpBlockedForDdos env ip w2 = (Returned true, w3) ->
  use_try env req s
  = (Returned tt,
     mkState w3
       (Response.make 429 (Response.headers (res s))
          (Some (Body.make 429 "Too many requests"
                   (Some "IP blocked due to DDoS protection")
                   (toISOString env (clock env w3)))))
       (security s)
       (logged s
        ++ [LogWarn ("Request blocked due to DDoS protection from IP "
                     ++ ip)])
       (calls s ++ firstn 3 (pipeline req)) (forwarded s)).
Proof.
  intros H1 Hb H2 Ha H3. run. step H1. step Hb. step H2. step Ha. step H3.
  now rewrite <- !app_assoc.
Qed.

(** Pass-through. *)
Lemma use_try_passes (s : State W Err) blockCheck w1 ddosCheck w2 w3 hs w4 :
  shouldBlockRequest env ip ua (path req) (world s)
  = (Returned blockCheck, w1) ->
  BlockCheck.shouldBlock blockCheck = false ->
  monitorTraffic env ip (path req) ua w1 = (Returned ddosCheck, w2) ->
  Attack.isAttack ddosCheck = false ->
  isIpBlockedForDdos env ip w2 = (Returned false, w3) ->
  getSecurityHeaders env w3 = (Returned hs, w4) ->
  Forall (accepts env) hs ->
  use_try env req s
  = (Returned tt,
     mkState w4
       (Response.make (Response.statusCode (res s))
                      (Response.putAll hs (Response.headers (res s)))
                      (Response.sent (res s)))
       (Some (Security.make ip ua (clock env w4)))
       (logged s)
       (calls s ++ firstn 4 (pipeline req))
       (forwarded s
        ++ [mkForwarded (Some (Security.make ip ua (clock env w4)))
              (Response.make (Response.statusCode (res s))
                             (Response.putAll hs (Response.headers (res s)))
                             (Response.sent (res s)))])).
Proof.
  intros H1 Hb H2 Ha H3 H4 Hall. run. step H1. step Hb. step H2. step Ha.
  step H3. step H4.
  rewrite (forEach_accepted hs _ Hall).
  unfold withRes; simpl. now rewrite <- !app_assoc.
Qed.

Ltac threw H HR :=
  let R := fresh "R" in
  let w := fresh "w" in
  let E := fresh "E" in
  pose proof HR as R;
  destruct (use_try_raises _ _ _ R) as (w & E);
  rewrite E in H; inversion H; subst; eexists; exact R.

(** The stages are the only places where the [try] block throws. *)
Lemma use_try_threw (s s1 : State W Err) (e : Err) :
  use_try env req s = (Threw e, s1) ->
  exists stage, Raises env req s stage e.
Proof.
  intros H.
  destruct (shouldBlockRequest env ip ua (path req) (world s))
    as [[bc|e1] w1] eqn:H1.
  2:{ threw H (RaisesBlocklistCheck env req s e1 w1 H1). }
  destruct (BlockCheck.shouldBlock bc) eqn:Hb.
  { rewrite (use_try_blocklist_hit s bc w1 H1 Hb) in H. discriminate. }
  destruct (monitorTraffic env ip (path req) ua w1) as [[ad|e2] w2] eqn:H2.
  2:{ threw H (RaisesTrafficMonitor env req s e2 bc w1 w2 H1 Hb H2). }
  destruct (Attack.isAttack ad) eqn:Ha.
  { rewrite (use_try_attack s bc w1 ad w2 H1 Hb H2 Ha) in H. discriminate. }
  destruct (isIpBlockedForDdos env ip w2) as [[[|]|e3] w3] eqn:H3.
  - rewrite (use_try_ddos_blocked s bc w1 ad w2 w3 H1 Hb H2 Ha H3) in H.
    discriminate.
  - destruct (getSecurityHeaders env w3) as [[hs|e4] w4] eqn:H4.
    + destruct (accepted_or_rejected hs)
        as [Hall | (before & k & v & rest & e5 & -> & Hall & Hkv)].
      * rewrite (use_try_passes s bc w1 ad w2 w3 hs w4
                   H1 Hb H2 Ha H3 H4 Hall) in H.
        discriminate.
      * threw H (RaisesWriteHeader env req s e5 bc w1 ad w2 w3 w4 before
                   k v rest H1 Hb H2 Ha H3 H4 Hall Hkv).
    + threw H (RaisesReadHeaders env req s e4 bc w1 ad w2 w3 w4
                 H1 Hb H2 Ha H3 H4).
  - threw H (RaisesDdosBlockCheck env req s e3 bc w1 ad w2 w3
               H1 Hb H2 Ha H3).
Qed.

Ltac raised HR :=
  let w := fresh "w" in
  let E := fresh "E" in
  destruct (use_raises _ _ _ HR) as (w & E);
  rewrite E; eexists _, _; repeat split;
  [ cbn [callsMade]; lia .. | now left ].

(** Past the traffic monitor the ddos-block state is always queried. *)
Lemma use_shape_monitored (s : State W Err) blockCheck w1 ddosCheck w2 :
  shouldBlockRequest env ip ua (path req) (world s)
  = (Returned blockCheck, w1) ->
  BlockCheck.shouldBlock blockCheck = false ->
  monitorTraffic env ip (path req) ua w1 = (Returned ddosCheck, w2) ->
  Attack.isAttack ddosCheck = false ->
  exists s' n,
    use env req s = (Returned tt, s')
    /\ (3 <= n <= 4)%nat
    /\ calls s' = calls s ++ firstn n (pipeline req)
    /\ (security s' = security s
        \/ exists t, security s' = Some (Security.make ip ua t)).
Proof.
  intros H1 Hb H2 Ha.
  destruct (isIpBlockedForDdos env ip w2) as [[[|]|e] w3] eqn:H3.
  - rewrite (use_returns _ _
               (use_try_ddos_blocked s _ w1 _ w2 w3 H1 Hb H2 Ha H3)).
    eexists _, 3%nat. repeat split; try lia. now left.
  - destruct (getSecurityHeaders env w3) as [[hs|e] w4] eqn:H4.
    + destruct (accepted_or_rejected hs)
        as [Hall | (before & k & v & rest & e & -> & Hall & Hkv)].
      * rewrite (use_returns _ _
                   (use_try_passes s _ w1 _ w2 w3 hs w4
                      H1 Hb H2 Ha H3 H4 Hall)).
        eexists _, 4%nat. repeat split; try lia. right. now eexists.
      * raised (RaisesWriteHeader env req s e _ w1 _ w2 w3 w4 before
                  k v rest H1 Hb H2 Ha H3 H4 Hall Hkv).
    + raised (RaisesReadHeaders env req s e _ w1 _ w2 w3 w4
                H1 Hb H2 Ha H3 H4).
  - raised (RaisesDdosBlockCheck env req s e _ w1 _ w2 w3 H1 Hb H2 Ha H3).
Qed.

(** Past the blocklist check the traffic monitor is always called. *)
Lemma use_shape_cleared (s : State W Err) blockCheck w1 :
  shouldBlockRequest env ip ua (path req) (world s)
  = (Returned blockCheck, w1) ->
  BlockCheck.shouldBlock blockCheck = false ->
  exists s' n,
    use env req s = (Returned tt, s')
    /\ (2 <= n <= 4)%nat
    /\ calls s' = calls s ++ firstn n (pipeline req)
    /\ (security s' = security s
        \/ exists t, security s' = Some (Security.make ip ua t)).
Proof.
  intros H1 Hb.
  destruct (monitorTraffic env ip (path req) ua w1) as [[ad|e] w2] eqn:H2.
  - destruct (Attack.isAttack ad) eqn:Ha.
    + rewrite (use_returns _ _ (use_try_attack s _ w1 ad w2 H1 Hb H2 Ha)).
      eexists _, 2%nat. repeat split; try lia. now left.
    + destruct (use_shape_monitored s _ w1 ad w2 H1 Hb H2 Ha)
        as (s' & n & E & Hn & Hc & Hs).
      exists s', n. repeat split; (lia || assumption).
  - raised (RaisesTrafficMonitor env req s e _ w1 w2 H1 Hb H2).
Qed.

(** Whatever the collaborators do, a run returns, has made an initial
    segment of the pipeline's calls, and has left [req.security] alone or
    set it to the context of this request. *)
Lemma use_shape (s : State W Err) :
  exists s' n,
    use env req s = (Returned tt, s')
    /\ (1 <= n <= 4)%nat
    /\ calls s' = calls s ++ firstn n (pipeline req)
    /\ (security s' = security s
        \/ exists t, security s' = Some (Security.make ip ua t)).
Proof.
  destruct (shouldBlockRequest env ip ua (path req) (world s))
    as [[bc|e] w1] eqn:H1.
  - destruct (BlockCheck.shouldBlock bc) eqn:Hb.
    + rewrite (use_returns _ _ (use_try_blocklist_hit s bc w1 H1 Hb)).
      eexists _, 1%nat. repeat split; try lia. now left.
    + destruct (use_shape_cleared s bc w1 H1 Hb)
        as (s' & n & E & Hn & Hc & Hs).
      exists s', n. repeat split; (lia || assumption).
  - raised (RaisesBlocklistCheck env req s e w1 H1).
Qed.

End Paths.

(** ** What the response carries after a series of writes *)

Lemma sameName_spec (a b : string) :
  Response.sameName a b = true <-> Js.toLowerCase a = Js.toLowerCase b.
Proof. unfold Response.sameName. apply String.eqb_eq. Qed.

Lemma sameName_false (a b : string) :
  Response.sameName a b = false <-> Js.toLowerCase a <> Js.toLowerCase b.
Proof. unfold Response.sameName. apply String.eqb_neq. Qed.

Lemma get_put_same (key value name : string)
  (carried : list (string * string)) :
  Response.sameName key name = true ->
  Response.get name (Response.put key value carried) = Some value.
Proof.
  intros Hkn. induction carried as [|[k v] rest IH]; simpl.
  - now rewrite Hkn.
  - destruct (Response.sameName k key) eqn:Hk; simpl.
    + now rewrite Hkn.
    + assert (Hn : Response.sameName k name = false).
      { apply sameName_false. apply sameName_false in Hk.
        apply sameName_spec in Hkn. congruence. }
      now rewrite Hn.
Qed.

Lemma get_put_other (key value name : string)
  (carried : list (string * string)) :
  Response.sameName key name = false ->
  Response.get name (Response.put key value carried)
  = Response.get name carried.
Proof.
  intros Hkn. induction carried as [|[k v] rest IH]; simpl.
  - now rewrite Hkn.
  - destruct (Response.sameName k key) eqn:Hk; simpl.
    + assert (Hn : Response.sameName k name = false).
      { apply sameName_false. apply sameName_false in Hkn.
        apply sameName_spec in Hk. congruence. }
      now rewrite Hkn, Hn.
    + destruct (Response.sameName k name); [reflexivity|exact IH].
Qed.

(** A name that is not written keeps its header. *)
Lemma get_putAll_other (name : string)
  (entries carried : list (string * string)) :
  Forall (fun entry => Response.sameName (fst entry) name = false) entries ->
  Response.get name (Response.putAll entries carried)
  = Response.get name carried.
Proof.
  revert carried; induction entries as [|[k v] entries IH];
    intros carried Hall; [reflexivity|].
  inversion Hall as [|? ? Hk Hrest]; subst. simpl in Hk.
  unfold Response.putAll in *. simpl.
  rewrite (IH _ Hrest). now apply get_put_other.
Qed.

(** A name that is written carries the value written last. *)
Lemma get_putAll_last (key value : string)
  (before after carried : list (string * string)) :
  Forall (fun entry => Response.sameName (fst entry) key = false) after ->
  Response.get key
    (Response.putAll (before ++ (key, value) :: after) carried)
  = Some value.
Proof.
  intros Hafter. unfold Response.putAll.
  rewrite fold_left_app. simpl. fold (Response.putAll before carried).
  pose proof (get_putAll_other key after
                (Response.put key value (Response.putAll before carried))
                Hafter) as H.
  unfold Response.putAll in H at 1. rewrite H.
  apply get_put_same. unfold Response.sameName. apply String.eqb_refl.
Qed.

(** ** The orchestration claims *)

Section Pipeline.

Variables W Err : Type.
Variable env : Env W Err.
Variable req : Request.

Local Abbreviation ip := (getClientIp req).
Local Abbreviation ua := (Js.or_default (user_agent (headers req)) "").

(** C1: no run of the middleware throws; the [try] block throws only when
    a stage of the pipeline raises (blocklist check, traffic monitor,
    ddos-block check, reading or writing the security headers; client-IP
    identification cannot raise); and whenever a stage raises, the error is
    caught and logged, [next()] is invoked exactly once and the request goes
    on as allowed: no status is set and no body is sent. *)
Theorem use_fails_open (s : State W Err) :
  (exists s', use env req s = (Returned tt, s'))
  /\ (forall e s1,
        use_try env req s = (Threw e, s1) ->
        exists stage, Raises env req s stage e)
  /\ (forall stage e,
        Raises env req s stage e ->
        exists s',
          use env req s = (Returned tt, s')
          /\ forwarded s' = forwarded s ++ [mkForwarded (security s') (res s')]
          /\ logged s' = logged s ++ [LogError "Security middleware error:" e]
          /\ Response.statusCode (res s') = Response.statusCode (res s)
          /\ Response.sent (res s') = Response.sent (res s)).
Proof.
  split; [|split].
  - destruct (use_shape W Err env req s) as (s' & n & E & _). now exists s'.
  - intros e s1. apply use_try_threw.
  - intros stage e HR.
    destruct (use_raises W Err env req s stage e HR) as (w & E).
    eexists. split; [exact E|]. repeat split.
Qed.

(** C2: the service calls of a run are an initial segment of the fixed
    sequence blocklist check, traffic monitor, ddos-block check (then the
    header set); [monitorTraffic] is not called when the blocklist check
    rejects, is called exactly once when the blocklist check passes, and
    that also when the ddos-block check then rejects. *)
Theorem use_check_order (s : State W Err) :
  exists s' made,
    use env req s = (Returned tt, s')
    /\ calls s' = calls s ++ made
    /\ (exists n, (1 <= n <= 4)%nat /\ made = firstn n (pipeline req))
    /\ (forall blockCheck w1,
          shouldBlockRequest env ip ua (path req) (world s)
          = (Returned blockCheck, w1) ->
          BlockCheck.shouldBlock blockCheck = true ->
          filter isMonitorTraffic made = [])
    /\ (forall blockCheck w1,
          shouldBlockRequest env ip ua (path req) (world s)
          = (Returned blockCheck, w1) ->
          BlockCheck.shouldBlock blockCheck = false ->
          filter isMonitorTraffic made = [CallMonitorTraffic ip (path req) ua])
    /\ (forall blockCheck w1 ddosCheck w2 w3,
          shouldBlockRequest env ip ua (path req) (world s)
          = (Returned blockCheck, w1) ->
          BlockCheck.shouldBlock blockCheck = false ->
          monitorTraffic env ip (path req) ua w1 = (Returned ddosCheck, w2) ->
          Attack.isAttack ddosCheck = false ->
          isIpBlockedForDdos env ip w2 = (Returned true, w3) ->
          made = [CallShouldBlockRequest ip ua (path req);
                  CallMonitorTraffic ip (path req) ua;
                  CallIsIpBlockedForDdos ip]).
Proof.
  destruct (use_shape W Err env req s) as (s' & n & E & Hn & Hc & _).
  exists s', (firstn n (pipeline req)).
  split; [exact E|]. split; [exact Hc|]. split; [now exists n|].
  assert (Hsame : forall s2 m,
             use env req s = (Returned tt, s2) ->
             calls s2 = calls s ++ firstn m (pipeline req) ->
             firstn n (pipeline req) = firstn m (pipeline req)).
  { intros s2 m E2 Hc2. rewrite E in E2. inversion E2; subst s2.
    rewrite Hc in Hc2. now apply app_inv_head in Hc2. }
  repeat split.
  - intros bc w1 H1 Hb.
    rewrite (Hsame _ 1%nat
               (use_returns W Err env req _ _
                  (use_try_blocklist_hit W Err env req s bc w1 H1 Hb))
               eq_refl).
    reflexivity.
  - intros bc w1 H1 Hb.
    destruct (use_shape_cleared W Err env req s bc w1 H1 Hb)
      as (s2 & m & E2 & Hm & Hc2 & _).
    rewrite (Hsame s2 m E2 Hc2).
    assert (Hcases : m = 2%nat \/ m = 3%nat \/ m = 4%nat) by lia.
    destruct Hcases as [-> | [-> | ->]]; reflexivity.
  - intros bc w1 ad w2 w3 H1 Hb H2 Ha H3.
    rewrite (Hsame _ 3%nat
               (use_returns W Err env req _ _
                  (use_try_ddos_blocked W Err env req s bc w1 ad w2 w3
                     H1 Hb H2 Ha H3))
               eq_refl).
    reflexivity.
Qed.

(** C3: when [shouldBlockRequest] returns [shouldBlock = true], the
    response gets status 403 and the body
    [{statusCode: 403, message: "Access forbidden", reason, timestamp}]
    with the returned reason and the ISO rendering of the current time, and
    [next()] is not called. *)
Theorem use_blocklist_403 (s : State W Err) blockCheck w1 :
  shouldBlockRequest env ip ua (path req) (world s)
  = (Returned blockCheck, w1) ->
  BlockCheck.shouldBlock blockCheck = true ->
  exists s',
    use env req s = (Returned tt, s')
    /\ Response.statusCode (res s') = 403%Z
    /\ Response.sent (res s')
       = Some (Body.make 403 "Access forbidden"
                 (BlockCheck.reason blockCheck)
                 (toISOString env (clock env w1)))
    /\ forwarded s' = forwarded s.
Proof.
  intros H1 Hb. eexists. split.
  - exact (use_returns W Err env req _ _
             (use_try_blocklist_hit W Err env req s blockCheck w1 H1 Hb)).
  - repeat split.
Qed.

(** C4: the traffic-monitor gate and the ddos-block gate are two checks.
    When [monitorTraffic] returns [isAttack = true] the response is 429 with
    reason "Potential DDoS attack detected", without a ddos-block query;
    when it returns [isAttack = false], [isIpBlockedForDdos] is still
    queried, and if that returns true the response is 429 with the other
    reason, "IP blocked due to DDoS protection". Neither forwards. *)
Theorem use_ddos_gates (s : State W Err) blockCheck w1 ddosCheck w2 :
  shouldBlockRequest env ip ua (path req) (world s)
  = (Returned blockCheck, w1) ->
  BlockCheck.shouldBlock blockCheck = false ->
  monitorTraffic env ip (path req) ua w1 = (Returned ddosCheck, w2) ->
  exists s',
    use env req s = (Returned tt, s')
    /\ (Attack.isAttack ddosCheck = true ->
        Response.statusCode (res s') = 429%Z
        /\ Response.sent (res s')
           = Some (Body.make 429 "Too many requests"
                     (Some "Potential DDoS attack detected")
                     (toISOString env (clock env w2)))
        /\ forwarded s' = forwarded s
        /\ calls s' = calls s ++ [CallShouldBlockRequest ip ua (path req);
                                  CallMonitorTraffic ip (path req) ua])
    /\ (Attack.isAttack ddosCheck = false ->
        (exists rest,
            calls s' = calls s ++ [CallShouldBlockRequest ip ua (path req);
                                   CallMonitorTraffic ip (path req) ua;
                                   CallIsIpBlockedForDdos ip] ++ rest)
        /\ (forall w3,
              isIpBlockedForDdos env ip w2 = (Returned true, w3) ->
              Response.statusCode (res s') = 429%Z
              /\ Response.sent (res s')
                 = Some (Body.make 429 "Too many requests"
                           (Some "IP blocked due to DDoS protection")
                           (toISOString env (clock env w3)))
              /\ forwarded s' = forwarded s)).
Proof.
  intros H1 Hb H2.
  destruct (Attack.isAttack ddosCheck) eqn:Ha.
  - eexists. split.
    + exact (use_returns W Err env req _ _
               (use_try_attack W Err env req s blockCheck w1 ddosCheck w2
                  H1 Hb H2 Ha)).
    + split; [|discriminate]. intros _. repeat split.
  - destruct (use_shape_monitored W Err env req s blockCheck w1 ddosCheck w2
                H1 Hb H2 Ha) as (s' & n & E & Hn & Hc & _).
    exists s'. split; [exact E|]. split; [discriminate|]. intros _. split.
    + assert (Hcases : n = 3%nat \/ n = 4%nat) by lia.
      destruct Hcases as [-> | ->]; rewrite Hc.
      * exists []. reflexivity.
      * exists [CallGetSecurityHeaders]. reflexivity.
    + intros w3 H3.
      rewrite (use_returns W Err env req _ _
                 (use_try_ddos_blocked W Err env req s blockCheck w1
                    ddosCheck w2 w3 H1 Hb H2 Ha H3)) in E.
      inversion E; subst s'. repeat split.
Qed.

(** C8, amended: for every request that passes all three checks and whose
    security headers are read and written without error, when [next()] is
    invoked the response carries, for every header name of the set returned
    by [getSecurityHeaders], the value of the last pair of that name (names
    compared ignoring case, as the response keeps one header per name), so
    every header/value pair of a set whose names differ; headers of other
    names are as they were; and the request carries the context
    [{clientIp, userAgent, timestamp}], with the resolved client IP, the
    request's user-agent value and the current time. [next()] is invoked
    once, no status is set and no body is sent. *)
Theorem use_pass_through (s : State W Err) blockCheck w1 ddosCheck w2 w3 hs w4 :
  shouldBlockRequest env ip ua (path req) (world s)
  = (Returned blockCheck, w1) ->
  BlockCheck.shouldBlock blockCheck = false ->
  monitorTraffic env ip (path req) ua w1 = (Returned ddosCheck, w2) ->
  Attack.isAttack ddosCheck = false ->
  isIpBlockedForDdos env ip w2 = (Returned false, w3) ->
  getSecurityHeaders env w3 = (Returned hs, w4) ->
  Forall (accepts env) hs ->
  exists s',
    use env req s = (Returned tt, s')
    /\ (forall before key value after,
          hs = before ++ (key, value) :: after ->
          Forall (fun entry => Response.sameName (fst entry) key = false)
                 after ->
          Response.getHeader key (res s') = Some value)
    /\ (forall name,
          Forall (fun entry => Response.sameName (fst entry) name = false) hs ->
          Response.getHeader name (res s') = Response.getHeader name (res s))
    /\ security s' = Some (Security.make ip ua (clock env w4))
    /\ forwarded s' = forwarded s ++ [mkForwarded (security s') (res s')]
    /\ Response.statusCode (res s') = Response.statusCode (res s)
    /\ Response.sent (res s') = Response.sent (res s).
Proof.
  intros H1 Hb H2 Ha H3 H4 Hall. eexists. split.
  - exact (use_returns W Err env req _ _
             (use_try_passes W Err env req s blockCheck w1 ddosCheck w2 w3
                hs w4 H1 Hb H2 Ha H3 H4 Hall)).
  - cbn [res security forwarded Response.statusCode Response.sent].
    unfold Response.getHeader. cbn [Response.headers]. repeat split.
    + intros before key value after -> Hafter.
      now apply get_putAll_last.
    + intros name Hother. now apply get_putAll_other.
Qed.

(** C9: when the request has no user-agent header, the user agent handed
    to [shouldBlockRequest] and to [monitorTraffic] is the empty string, and
    so is the [userAgent] of the security context the run attaches: every
    run calls the blocklist check with "", the calls it makes are an
    initial segment of the pipeline with "", and a run whose checks pass
    and whose headers are read and written makes all four calls with "",
    attaches the context [{clientIp, userAgent: "", timestamp}] and hands
    that context downstream. *)
Theorem use_absent_user_agent (s : State W Err) :
  user_agent (headers req) = None ->
  exists s',
    use env req s = (Returned tt, s')
    /\ (exists n,
          (1 <= n <= 4)%nat
          /\ calls s'
             = calls s
               ++ firstn n [CallShouldBlockRequest ip "" (path req);
                            CallMonitorTraffic ip (path req) "";
                            CallIsIpBlockedForDdos ip;
                            CallGetSecurityHeaders])
    /\ (security s' = security s
        \/ exists t, security s' = Some (Security.make ip "" t))
    /\ (forall blockCheck w1 ddosCheck w2 w3 hs w4,
          shouldBlockRequest env ip "" (path req) (world s)
          = (Returned blockCheck, w1) ->
          BlockCheck.shouldBlock blockCheck = false ->
          monitorTraffic env ip (path req) "" w1 = (Returned ddosCheck, w2) ->
          Attack.isAttack ddosCheck = false ->
          isIpBlockedForDdos env ip w2 = (Returned false, w3) ->
          getSecurityHeaders env w3 = (Returned hs, w4) ->
          Forall (accepts env) hs ->
          calls s'
          = calls s ++ [CallShouldBlockRequest ip "" (path req);
                        CallMonitorTraffic ip (path req) "";
                        CallIsIpBlockedForDdos ip;
                        CallGetSecurityHeaders]
          /\ security s' = Some (Security.make ip "" (clock env w4))
          /\ forwarded s'
             = forwarded s
               ++ [mkForwarded (Some (Security.make ip "" (clock env w4)))
                               (res s')]).
Proof.
  intros Hua.
  destruct (use_shape W Err env req s) as (s' & n & E & Hn & Hc & Hs).
  unfold pipeline in Hc. rewrite Hua in Hc, Hs. simpl in Hc, Hs.
  exists s'. split; [exact E|]. split; [exists n; split; [lia|exact Hc]|].
  split; [exact Hs|].
  intros blockCheck w1 ddosCheck w2 w3 hs w4 H1 Hb H2 Ha H3 H4 Hall.
  pose proof (use_try_passes W Err env req s blockCheck w1 ddosCheck w2 w3
                hs w4) as P.
  rewrite Hua in P. cbn [Js.or_default] in P.
  specialize (P H1 Hb H2 Ha H3 H4 Hall).
  rewrite (use_returns W Err env req _ _ P) in E.
  inversion E; subst s'. repeat split.
  cbn [calls]. unfold pipeline. rewrite Hua. reflexivity.
Qed.

(** C10, amended: on the fail-open path the middleware forwards the request
    via [next()] without attaching the security context, and leaves the
    status and the body of the response as they were. When the error comes
    from a service call (blocklist check, traffic monitor, ddos-block check
    or reading the header set) no security header is set and the response
    is unchanged; when it comes from writing a header, the response carries,
    for every name written before the failing one, the value last written
    under that name (names compared ignoring case), and its headers of
    other names are as they were. *)
Theorem use_fail_open_frame (s : State W Err) (stage : Stage) (e : Err) :
  Raises env req s stage e ->
  exists s',
    use env req s = (Returned tt, s')
    /\ forwarded s' = forwarded s ++ [mkForwarded (security s) (res s')]
    /\ security s' = security s
    /\ Response.statusCode (res s') = Response.statusCode (res s)
    /\ Response.sent (res s') = Response.sent (res s)
    /\ (forall before key value after,
          written stage = before ++ (key, value) :: after ->
          Forall (fun entry => Response.sameName (fst entry) key = false)
                 after ->
          Response.getHeader key (res s') = Some value)
    /\ (forall name,
          Forall (fun entry => Response.sameName (fst entry) name = false)
                 (written stage) ->
          Response.getHeader name (res s') = Response.getHeader name (res s))
    /\ (written stage = [] -> res s' = res s).
Proof.
  intros HR.
  destruct (use_raises W Err env req s stage e HR) as (w & E).
  eexists. split; [exact E|].
  cbn [res security forwarded Response.statusCode Response.sent].
  unfold Response.getHeader. cbn [Response.headers]. repeat split.
  - intros before key value after -> Hafter. now apply get_putAll_last.
  - intros name Hother. now apply get_putAll_other.
  - intros ->. now destruct (res s).
Qed.

End Pipeline.

(** ** Runs on the concrete platform *)

Example toISOString_epoch :
  Node.toISOString 0 = "1970-01-01T00:00:00.000Z"
  /\ Node.toISOString 951782400000 = "2000-02-29T00:00:00.000Z"
  /\ Node.toISOString (-1) = "1969-12-31T23:59:59.999Z".
Proof. repeat split. Qed.

Example use_passing_run :
  use Node.passing Node.proxied Node.start
  = (Returned tt,
     mkState 1700000000004%Z
       (Response.make 200 Node.someHeaders None)
       (Some (Security.make "203.0.113.7" "Mozilla/5.0" 1700000000004))
       []
       [CallShouldBlockRequest "203.0.113.7" "Mozilla/5.0" "/api/properties";
        CallMonitorTraffic "203.0.113.7" "/api/properties" "Mozilla/5.0";
        CallIsIpBlockedForDdos "203.0.113.7";
        CallGetSecurityHeaders]
       [mkForwarded
          (Some (Security.make "203.0.113.7" "Mozilla/5.0" 1700000000004))
          (Response.make 200 Node.someHeaders None)]).
Proof. reflexivity. Qed.

Lemma use_fails_open_witness :
  Raises Node.monitorDown Node.proxied Node.start TrafficMonitor "ECONNREFUSED"
  /\ exists s',
       use Node.monitorDown Node.proxied Node.start = (Returned tt, s')
       /\ forwarded s' = [mkForwarded (security s') (res s')]
       /\ logged s' = [LogError "Security middleware error:" "ECONNREFUSED"]
       /\ Response.statusCode (res s') = 200%Z
       /\ Response.sent (res s') = None.
Proof.
  assert (HR : Raises Node.monitorDown Node.proxied Node.start TrafficMonitor
                 "ECONNREFUSED").
  { eapply RaisesTrafficMonitor; reflexivity. }
  split; [exact HR|].
  exact (proj2 (proj2 (use_fails_open Z string Node.monitorDown Node.proxied
                         Node.start)) _ _ HR).
Defined.

Lemma use_check_order_witness :
  exists s' made,
    use Node.autoBlocked Node.proxied Node.start = (Returned tt, s')
    /\ calls s' = made
    /\ made = [CallShouldBlockRequest "203.0.113.7" "Mozilla/5.0"
                 "/api/properties";
               CallMonitorTraffic "203.0.113.7" "/api/properties"
                 "Mozilla/5.0";
               CallIsIpBlockedForDdos "203.0.113.7"]
    /\ filter isMonitorTraffic made
       = [CallMonitorTraffic "203.0.113.7" "/api/properties" "Mozilla/5.0"].
Proof.
  destruct (use_check_order Z string Node.autoBlocked Node.proxied Node.start)
    as (s' & made & E & Hc & _ & _ & Hone & Hthree).
  exists s', made. split; [exact E|]. split; [exact Hc|]. split.
  - eapply Hthree; reflexivity.
  - eapply Hone; reflexivity.
Defined.

Lemma use_blocklist_403_witness :
  exists s',
    use Node.blocking Node.proxied Node.start = (Returned tt, s')
    /\ Response.statusCode (res s') = 403%Z
    /\ Response.sent (res s')
       = Some (Body.make 403 "Access forbidden" (Some "manual block")
                 "2023-11-14T22:13:20.001Z")
    /\ forwarded s' = [].
Proof.
  exact (use_blocklist_403 Z string Node.blocking Node.proxied Node.start
           (BlockCheck.make true (Some "manual block")) 1700000000001%Z
           eq_refl eq_refl).
Defined.

Lemma use_ddos_gates_witness :
  (exists s',
      use Node.attacked Node.proxied Node.start = (Returned tt, s')
      /\ Response.statusCode (res s') = 429%Z
      /\ Response.sent (res s')
         = Some (Body.make 429 "Too many requests"
                   (Some "Potential DDoS attack detected")
                   "2023-11-14T22:13:20.002Z")
      /\ forwarded s' = [])
  /\ (exists s',
        use Node.autoBlocked Node.proxied Node.start = (Returned tt, s')
        /\ Response.statusCode (res s') = 429%Z
        /\ Response.sent (res s')
           = Some (Body.make 429 "Too many requests"
                     (Some "IP blocked due to DDoS protection")
                     "2023-11-14T22:13:20.003Z")
        /\ forwarded s' = []).
Proof.
  split.
  - destruct (use_ddos_gates Z string Node.attacked Node.proxied Node.start
                (BlockCheck.make false None) 1700000000001%Z
                (Attack.make true 97 (Some "burst")) 1700000000002%Z
                eq_refl eq_refl eq_refl)
      as (s' & E & Hattack & _).
    destruct (Hattack eq_refl) as (Hc & Hb & Hf & _).
    exists s'. repeat split; assumption.
  - destruct (use_ddos_gates Z string Node.autoBlocked Node.proxied Node.start
                (BlockCheck.make false None) 1700000000001%Z
                (Attack.make false 0 None) 1700000000002%Z
                eq_refl eq_refl eq_refl)
      as (s' & E & _ & Hcalm).
    destruct (Hcalm eq_refl) as (_ & Hblocked).
    destruct (Hblocked 1700000000003%Z eq_refl) as (Hc & Hb & Hf).
    exists s'. repeat split; assumption.
Defined.

Lemma getClientIp_trimming_witness :
  getClientIp (mkRequest (mkHeaders None (Some (HSingle " 192.168.1.2 ")) None)
                 "/" (Some (mkSocket (Some "10.0.0.1"))) None)
  = " 192.168.1.2 "
  /\ getClientIp (mkRequest (mkHeaders (Some (HSingle " , 10.0.0.9"))
                               (Some (HSingle "192.168.1.2")) None)
                    "/" None None)
     = getClientIp (mkRequest (mkHeaders None (Some (HSingle "192.168.1.2"))
                                 None)
                      "/" None None)
  /\ getClientIp (mkRequest (mkHeaders (Some (HSingle " 192.168.1.1 , 10.0.0.9"))
                               None None)
                    "/" None None)
     = "192.168.1.1".
Proof.
  destruct (getClientIp_trimming None "/") as (Hforwarded & Hreal & _).
  split; [|split].
  - apply (proj1 (Hreal (HSingle " 192.168.1.2 ") _ _)). discriminate.
  - apply (proj2 (proj2 (Hforwarded (HSingle " , 10.0.0.9") _ _ _))).
    reflexivity.
  - apply (proj1 (proj2 (Hforwarded (HSingle " 192.168.1.1 , 10.0.0.9")
                           None None None))).
    discriminate.
Defined.


(** C8, as stated, fails: a request passes all three checks, the header set
    then cannot be read, and [next()] is invoked with no security context
    on the request. *)
Lemma use_forwards_without_context :
  fst (shouldBlockRequest Node.headersDown "203.0.113.7" "Mozilla/5.0"
         "/api/properties" 1700000000000%Z)
  = Returned (BlockCheck.make false None)
  /\ fst (monitorTraffic Node.headersDown "203.0.113.7" "/api/properties"
            "Mozilla/5.0" 1700000000001%Z)
     = Returned (Attack.make false 0 None)
  /\ fst (isIpBlockedForDdos Node.headersDown "203.0.113.7" 1700000000002%Z)
     = Returned false
  /\ exists s',
       use Node.headersDown Node.proxied Node.start = (Returned tt, s')
       /\ forwarded s' = [mkForwarded None Response.fresh]
       /\ security s' = None.
Proof. repeat split. eexists. repeat split. Qed.

Lemma use_pass_through_witness :
  (exists s',
      use Node.passing Node.proxied Node.start = (Returned tt, s')
      /\ Response.getHeader "X-Frame-Options" (res s') = Some "DENY"
      /\ Response.getHeader "X-Content-Type-Options" (res s') = Some "nosniff"
      /\ Response.getHeader "Content-Type" (res s') = None
      /\ security s'
         = Some (Security.make "203.0.113.7" "Mozilla/5.0" 1700000000004)
      /\ forwarded s' = [mkForwarded (security s') (res s')]
      /\ Response.statusCode (res s') = 200%Z
      /\ Response.sent (res s') = None)
  /\ (exists s',
         use Node.doubled Node.proxied Node.start = (Returned tt, s')
         /\ Response.getHeader "x-frame-options" (res s') = Some "SAMEORIGIN"
         /\ Response.getHeader "X-Content-Type-Options" (res s')
            = Some "nosniff").
Proof.
  split.
  - destruct (use_pass_through Z string Node.passing Node.proxied Node.start
                (BlockCheck.make false None) 1700000000001%Z
                (Attack.make false 0 None) 1700000000002%Z 1700000000003%Z
                Node.someHeaders 1700000000004%Z
                eq_refl eq_refl eq_refl eq_refl eq_refl eq_refl)
      as (s' & E & Hcarried & Hother & Hsec & Hfwd & Hcode & Hsent).
    { repeat constructor. }
    exists s'. split; [exact E|]. split; [|split; [|split]].
    + apply (Hcarried [] "X-Frame-Options" "DENY"
               [("X-Content-Type-Options", "nosniff")] eq_refl).
      repeat constructor.
    + apply (Hcarried [("X-Frame-Options", "DENY")] "X-Content-Type-Options"
               "nosniff" [] eq_refl).
      constructor.
    + rewrite (Hother "Content-Type"); [reflexivity|repeat constructor].
    + repeat split; assumption.
  - destruct (use_pass_through Z string Node.doubled Node.proxied Node.start
                (BlockCheck.make false None) 1700000000001%Z
                (Attack.make false 0 None) 1700000000002%Z 1700000000003%Z
                Node.doubledHeaders 1700000000004%Z
                eq_refl eq_refl eq_refl eq_refl eq_refl eq_refl)
      as (s' & E & Hcarried & _).
    { repeat constructor. }
    exists s'. split; [exact E|]. split.
    + apply (Hcarried [("X-Frame-Options", "DENY");
                       ("X-Content-Type-Options", "nosniff")]
               "x-frame-options" "SAMEORIGIN" [] eq_refl).
      constructor.
    + apply (Hcarried [("X-Frame-Options", "DENY")] "X-Content-Type-Options"
               "nosniff" [("x-frame-options", "SAMEORIGIN")] eq_refl).
      repeat constructor.
Defined.

(** With two keys of the set differing in case only, the response keeps
    the later pair in the place of the earlier one. *)
Example use_doubled_run :
  exists s',
    use Node.doubled Node.proxied Node.start = (Returned tt, s')
    /\ Response.headers (res s')
       = [("x-frame-options", "SAMEORIGIN");
          ("X-Content-Type-Options", "nosniff")]
    /\ Response.getHeader "X-Frame-Options" (res s') = Some "SAMEORIGIN".
Proof. eexists. repeat split. Qed.

Lemma use_absent_user_agent_witness :
  exists s',
    use Node.passing Node.anonymous Node.start = (Returned tt, s')
    /\ calls s'
       = [CallShouldBlockRequest "203.0.113.7" "" "/api/properties";
          CallMonitorTraffic "203.0.113.7" "/api/properties" "";
          CallIsIpBlockedForDdos "203.0.113.7";
          CallGetSecurityHeaders]
    /\ security s' = Some (Security.make "203.0.113.7" "" 1700000000004)
    /\ forwarded s'
       = [mkForwarded (Some (Security.make "203.0.113.7" "" 1700000000004))
                      (res s')].
Proof.
  destruct (use_absent_user_agent Z string Node.passing Node.anonymous
              Node.start eq_refl)
    as (s' & E & _ & _ & Hpass).
  exists s'. split; [exact E|].
  apply (Hpass (BlockCheck.make false None) 1700000000001%Z
           (Attack.make false 0 None) 1700000000002%Z 1700000000003%Z
           Node.someHeaders 1700000000004%Z);
    try reflexivity.
  repeat constructor.
Defined.

(** C10, as stated, fails: the second header of the set is rejected when it
    is written, the run fails open, and the request is forwarded with the
    first security header set on the response. *)
Lemma use_fails_open_with_header :
  Raises Node.misconfigured Node.proxied Node.start
         (WriteHeader [("X-Content-Type-Options", "nosniff")])
         "ERR_INVALID_HTTP_TOKEN"
  /\ exists s',
       use Node.misconfigured Node.proxied Node.start = (Returned tt, s')
       /\ forwarded s'
          = [mkForwarded None
               (Response.make 200 [("X-Content-Type-Options", "nosniff")]
                              None)]
       /\ Response.headers (res s') = [("X-Content-Type-Options", "nosniff")]
       /\ res s' <> res Node.start.
Proof.
  split.
  - eapply (RaisesWriteHeader Node.misconfigured Node.proxied Node.start
              _ _ _ _ _ _ _ [("X-Content-Type-Options", "nosniff")]
              "X-Frame-Options:" "DENY" []);
      try reflexivity.
    repeat constructor.
  - eexists. repeat split. discriminate.
Qed.

Lemma use_fail_open_frame_witness :
  (Raises Node.headersDown Node.proxied Node.start ReadHeaders
          "configuration unavailable"
   /\ exists s',
        use Node.headersDown Node.proxied Node.start = (Returned tt, s')
        /\ forwarded s' = [mkForwarded None (res s')]
        /\ security s' = None
        /\ res s' = Response.fresh)
  /\ (Raises Node.misconfigured Node.proxied Node.start
             (WriteHeader [("X-Content-Type-Options", "nosniff")])
             "ERR_INVALID_HTTP_TOKEN"
      /\ exists s',
           use Node.misconfigured Node.proxied Node.start = (Returned tt, s')
           /\ forwarded s' = [mkForwarded None (res s')]
           /\ security s' = None
           /\ Response.getHeader "X-Content-Type-Options" (res s')
              = Some "nosniff"
           /\ Response.getHeader "X-Frame-Options" (res s') = None).
Proof.
  split.
  - assert (HR : Raises Node.headersDown Node.proxied Node.start ReadHeaders
                   "configuration unavailable").
    { eapply RaisesReadHeaders; reflexivity. }
    split; [exact HR|].
    destruct (use_fail_open_frame Z string Node.headersDown Node.proxied
                Node.start _ _ HR)
      as (s' & E & Hf & Hs & _ & _ & _ & _ & Hres).
    exists s'. repeat split; try assumption. exact (Hres eq_refl).
  - assert (HR : Raises Node.misconfigured Node.proxied Node.start
                   (WriteHeader [("X-Content-Type-Options", "nosniff")])
                   "ERR_INVALID_HTTP_TOKEN").
    { eapply (RaisesWriteHeader Node.misconfigured Node.proxied Node.start
                _ _ _ _ _ _ _ [("X-Content-Type-Options", "nosniff")]
                "X-Frame-Options:" "DENY" []);
        try reflexivity.
      repeat constructor. }
    split; [exact HR|].
    destruct (use_fail_open_frame Z string Node.misconfigured Node.proxied
                Node.start _ _ HR)
      as (s' & E & Hf & Hs & _ & _ & Hcarried & Hother & _).
    exists s'. split; [exact E|]. split; [exact Hf|]. split; [exact Hs|].
    split.
    + apply (Hcarried [] "X-Content-Type-Options" "nosniff" [] eq_refl).
      constructor.
    + rewrite (Hother "X-Frame-Options"); [reflexivity|repeat constructor].
Defined.

(** * Further properties of the middleware *)

Lemma string_append_empty (s : string) : (s ++ "")%string = s.
Proof. induction s as [|c r IH]; simpl; [reflexivity|now rewrite IH]. Qed.

Section Outcomes.

Variables W Err : Type.
Variable env : Env W Err.
Variable req : Request.

Local Abbreviation ip := (getClientIp req).
Local Abbreviation ua := (Js.or_default (user_agent (headers req)) "").

(** The three ways a run can go: it rejects with a 403 or 429, a stage
    raises, or every check passes and every header is written. *)
Lemma use_cases (s : State W Err) :
  (exists s' body pre post,
      use env req s = (Returned tt, s')
      /\ res s' = Response.make (Body.statusCode body)
                    (Response.headers (res s)) (Some body)
      /\ (Body.statusCode body = 403%Z \/ Body.statusCode body = 429%Z)
      /\ security s' = security s
      /\ forwarded s' = forwarded s
      /\ logged s' = logged s ++ [LogWarn (pre ++ ip ++ post)%string])
  \/ (exists stage e, Raises env req s stage e)
  \/ (exists blockCheck w1 ddosCheck w2 w3 hs w4,
        shouldBlockRequest env ip ua (path req) (world s)
        = (Returned blockCheck, w1)
        /\ BlockCheck.shouldBlock blockCheck = false
        /\ monitorTraffic env ip (path req) ua w1 = (Returned ddosCheck, w2)
        /\ Attack.isAttack ddosCheck = false
        /\ isIpBlockedForDdos env ip w2 = (Returned false, w3)
        /\ getSecurityHeaders env w3 = (Returned hs, w4)
        /\ Forall (accepts env) hs).
Proof.
  destruct (shouldBlockRequest env ip ua (path req) (world s))
    as [[bc|e1] w1] eqn:H1.
  2:{ right; left. eexists _, e1. eapply RaisesBlocklistCheck; eassumption. }
  destruct (BlockCheck.shouldBlock bc) eqn:Hb.
  { left.
    eexists _, (Body.make 403 "Access forbidden" (BlockCheck.reason bc)
                  (toISOString env (clock env w1))),
      "Blocked request from IP ", _.
    split.
    - exact (use_returns W Err env req _ _
               (use_try_blocklist_hit W Err env req s bc w1 H1 Hb)).
    - cbn. repeat split. now left. }
  destruct (monitorTraffic env ip (path req) ua w1) as [[ad|e2] w2] eqn:H2.
  2:{ right; left. eexists _, e2. eapply RaisesTrafficMonitor; eassumption. }
  destruct (Attack.isAttack ad) eqn:Ha.
  { left.
    eexists _, (Body.make 429 "Too many requests"
                  (Some "Potential DDoS attack detected")
                  (toISOString env (clock env w2))),
      "DDoS attack detected from IP ", "".
    split.
    - exact (use_returns W Err env req _ _
               (use_try_attack W Err env req s bc w1 ad w2 H1 Hb H2 Ha)).
    - cbn. repeat split; [now right|].
      now rewrite string_append_empty. }
  destruct (isIpBlockedForDdos env ip w2) as [[[|]|e3] w3] eqn:H3.
  - left.
    eexists _, (Body.make 429 "Too many requests"
                  (Some "IP blocked due to DDoS protection")
                  (toISOString env (clock env w3))),
      "Request blocked due to DDoS protection from IP ", "".
    split.
    + exact (use_returns W Err env req _ _
               (use_try_ddos_blocked W Err env req s bc w1 ad w2 w3
                  H1 Hb H2 Ha H3)).
    + cbn. repeat split; [now right|].
      now rewrite string_append_empty.
  - destruct (getSecurityHeaders env w3) as [[hs|e4] w4] eqn:H4.
    + destruct (accepted_or_rejected W Err env hs)
        as [Hall | (before & k & v & rest & e5 & -> & Hall & Hkv)].
      * right; right. exists bc, w1, ad, w2, w3, hs, w4. repeat split; assumption.
      * right; left. eexists _, e5. eapply RaisesWriteHeader; eassumption.
    + right; left. eexists _, e4. eapply RaisesReadHeaders; eassumption.
  - right; left. eexists _, e3. eapply RaisesDdosBlockCheck; eassumption.
Qed.

(** X1: every run either answers or forwards, never both and never neither.
    Either a body is sent whose status code, 403 or 429, is also the status
    of the response, nothing is forwarded and no header is written (a
    rejection carries no security header); or [next()] is invoked exactly
    once, on the request and response as the run leaves them, and the run
    sets no status and sends no body. *)
Theorem use_responds_or_forwards (s : State W Err) :
  exists s',
    use env req s = (Returned tt, s')
    /\ ((exists body,
            Response.sent (res s') = Some body
            /\ Response.statusCode (res s') = Body.statusCode body
            /\ (Body.statusCode body = 403%Z \/ Body.statusCode body = 429%Z)
            /\ Response.headers (res s') = Response.headers (res s)
            /\ forwarded s' = forwarded s)
        \/ (forwarded s' = forwarded s ++ [mkForwarded (security s') (res s')]
            /\ Response.sent (res s') = Response.sent (res s)
            /\ Response.statusCode (res s') = Response.statusCode (res s))).
Proof.
  destruct (use_cases s)
    as [(s' & body & pre & post & E & Hres & Hcode & Hsec & Hfwd & Hlog)
       | [(stage & e & HR)
         | (bc & w1 & ad & w2 & w3 & hs & w4 & H1 & Hb & H2 & Ha & H3 & H4
            & Hall)]].
  - exists s'. split; [exact E|]. left. exists body. rewrite Hres.
    repeat split; assumption.
  - destruct (use_raises W Err env req s stage e HR) as (w & E).
    eexists. split; [exact E|]. right. repeat split.
  - eexists. split.
    + exact (use_returns W Err env req _ _
               (use_try_passes W Err env req s bc w1 ad w2 w3 hs w4
                  H1 Hb H2 Ha H3 H4 Hall)).
    + right. repeat split.
Qed.

(** X2: what a run logs tells how it went. A rejection logs one warning,
    which names the resolved client IP, and forwards nothing; a failure
    logs the caught error once and forwards the request without a context
    of its own; a pass-through logs nothing and forwards the request with
    the context of this request. *)
Theorem use_log_entry (s : State W Err) :
  exists s',
    use env req s = (Returned tt, s')
    /\ ((exists pre post,
            logged s' = logged s ++ [LogWarn (pre ++ ip ++ post)%string]
            /\ forwarded s' = forwarded s)
        \/ (exists e,
               logged s'
               = logged s ++ [LogError "Security middleware error:" e]
               /\ forwarded s'
                  = forwarded s ++ [mkForwarded (security s) (res s')])
        \/ (logged s' = logged s
            /\ exists t,
                 forwarded s'
                 = forwarded s
                   ++ [mkForwarded (Some (Security.make ip ua t)) (res s')])).
Proof.
  destruct (use_cases s)
    as [(s' & body & pre & post & E & Hres & Hcode & Hsec & Hfwd & Hlog)
       | [(stage & e & HR)
         | (bc & w1 & ad & w2 & w3 & hs & w4 & H1 & Hb & H2 & Ha & H3 & H4
            & Hall)]].
  - exists s'. split; [exact E|]. left. exists pre, post. now split.
  - destruct (use_raises W Err env req s stage e HR) as (w & E).
    eexists. split; [exact E|]. right; left. exists e. now split.
  - eexists. split.
    + exact (use_returns W Err env req _ _
               (use_try_passes W Err env req s bc w1 ad w2 w3 hs w4
                  H1 Hb H2 Ha H3 H4 Hall)).
    + right; right. split; [reflexivity|]. now eexists.
Qed.

(** X3: a security context on a forwarded request is a proof of passage.
    For a request that arrives without one, if downstream handling finds a
    context on it, then the blocklist check, the traffic monitor and the
    ddos-block check all returned and let the request pass, the context is
    that of this request, and the response downstream sees carries, for
    every header name of the set [getSecurityHeaders] returned, the value of
    the last pair of that name (names compared ignoring case). *)
Theorem use_context_means_checked (s s' : State W Err) (f : Forwarded)
  (ctx : Security.t) :
  security s = None ->
  use env req s = (Returned tt, s') ->
  forwarded s' = forwarded s ++ [f] ->
  seenSecurity f = Some ctx ->
  exists blockCheck w1 ddosCheck w2 w3 hs w4,
    shouldBlockRequest env ip ua (path req) (world s)
    = (Returned blockCheck, w1)
    /\ BlockCheck.shouldBlock blockCheck = false
    /\ monitorTraffic env ip (path req) ua w1 = (Returned ddosCheck, w2)
    /\ Attack.isAttack ddosCheck = false
    /\ isIpBlockedForDdos env ip w2 = (Returned false, w3)
    /\ getSecurityHeaders env w3 = (Returned hs, w4)
    /\ ctx = Security.make ip ua (clock env w4)
    /\ (forall before key value after,
          hs = before ++ (key, value) :: after ->
          Forall (fun entry => Response.sameName (fst entry) key = false)
                 after ->
          Response.getHeader key (seenResponse f) = Some value).
Proof.
  intros Hnone E Hfwd Hctx.
  destruct (use_cases s)
    as [(s1 & body & pre & post & E1 & Hres & Hcode & Hsec & Hf1 & Hlog)
       | [(stage & e & HR)
         | (bc & w1 & ad & w2 & w3 & hs & w4 & H1 & Hb & H2 & Ha & H3 & H4
            & Hall)]].
  - rewrite E in E1. inversion E1; subst s1.
    rewrite Hf1 in Hfwd. apply (f_equal (@length _)) in Hfwd.
    rewrite length_app in Hfwd. simpl in Hfwd. lia.
  - destruct (use_raises W Err env req s stage e HR) as (w & E1).
    rewrite E in E1. inversion E1; subst s'. cbn [forwarded] in Hfwd.
    apply app_inv_head in Hfwd. inversion Hfwd; subst f.
    cbn [seenSecurity] in Hctx. congruence.
  - pose proof (use_returns W Err env req _ _
                  (use_try_passes W Err env req s bc w1 ad w2 w3 hs w4
                     H1 Hb H2 Ha H3 H4 Hall)) as E1.
    rewrite E in E1. inversion E1; subst s'. cbn [forwarded] in Hfwd.
    apply app_inv_head in Hfwd. inversion Hfwd; subst f.
    cbn [seenSecurity] in Hctx. inversion Hctx; subst ctx.
    exists bc, w1, ad, w2, w3, hs, w4.
    repeat split; try assumption.
    intros before key value after -> Hafter.
    unfold Response.getHeader. cbn [seenResponse Response.headers].
    now apply get_putAll_last.
Qed.

End Outcomes.

Lemma use_context_means_checked_witness :
  exists blockCheck w1 ddosCheck w2 w3 hs w4,
    shouldBlockRequest Node.passing "203.0.113.7" "Mozilla/5.0"
      "/api/properties" 1700000000000%Z
    = (Returned blockCheck, w1)
    /\ BlockCheck.shouldBlock blockCheck = false
    /\ monitorTraffic Node.passing "203.0.113.7" "/api/properties"
         "Mozilla/5.0" w1
       = (Returned ddosCheck, w2)
    /\ Attack.isAttack ddosCheck = false
    /\ isIpBlockedForDdos Node.passing "203.0.113.7" w2 = (Returned false, w3)
    /\ getSecurityHeaders Node.passing w3 = (Returned hs, w4)
    /\ Security.make "203.0.113.7" "Mozilla/5.0" 1700000000004
       = Security.make "203.0.113.7" "Mozilla/5.0" w4
    /\ (forall before key value after,
          hs = before ++ (key, value) :: after ->
          Forall (fun entry => Response.sameName (fst entry) key = false)
                 after ->
          Response.getHeader key (Response.make 200 Node.someHeaders None)
          = Some value).
Proof.
  exact (use_context_means_checked Z string Node.passing Node.proxied
           Node.start _
           (mkForwarded
              (Some (Security.make "203.0.113.7" "Mozilla/5.0" 1700000000004))
              (Response.make 200 Node.someHeaders None))
           (Security.make "203.0.113.7" "Mozilla/5.0" 1700000000004)
           eq_refl eq_refl eq_refl eq_refl).
Defined.

(** * Further properties of client-IP resolution *)

Section ClientIp.

Local Open Scope string_scope.

Lemma string_append_assoc (a b c : string) : (a ++ b) ++ c = a ++ (b ++ c).
Proof. induction a as [|x a IH]; simpl; [reflexivity|now rewrite IH]. Qed.

(** The first entry of a list stays the same when entries are appended. *)
Lemma firstEntry_append_comma (a b : string) :
  Spec.firstEntry (a ++ String "," b) = Spec.firstEntry a.
Proof.
  induction a as [|c r IH]; simpl; [reflexivity|].
  destruct (Ascii.eqb c ","); [reflexivity|now rewrite IH].
Qed.





(** X4: only the first entry of the forwarded-for header counts. Whatever
    follows the first comma (the proxies that appended themselves) does not
    change the resolved client IP, and a header that arrives as an array
    resolves as its first element does. *)
Theorem getClientIp_first_entry_only
  (xri : option HeaderValue) (ua : option string) (p : string)
  (conn sock : option Socket) (a : string) :
  (forall b,
      getClientIp (mkRequest (mkHeaders (Some (HSingle (a ++ "," ++ b))) xri ua)
                     p conn sock)
      = getClientIp (mkRequest (mkHeaders (Some (HSingle a)) xri ua)
                       p conn sock))
  /\ (forall rest,
        getClientIp (mkRequest (mkHeaders (Some (HMulti (a :: rest))) xri ua)
                       p conn sock)
        = getClientIp (mkRequest (mkHeaders (Some (HSingle a)) xri ua)
                         p conn sock)).
Proof.
  split.
  - intros b. rewrite !getClientIp_firstMatch, !forwardedCandidate_spec.
    cbn [headers x_forwarded_for Js.chain toString].
    change (a ++ "," ++ b) with (a ++ String "," b).
    now rewrite firstEntry_append_comma.
  - intros rest. rewrite !getClientIp_firstMatch, !forwardedCandidate_spec.
    cbn [headers x_forwarded_for Js.chain toString].
    destruct rest as [|b rest]; [reflexivity|].
    change (String.concat "," (a :: b :: rest))
      with (a ++ String "," (String.concat "," (b :: rest))).
    now rewrite firstEntry_append_comma.
Qed.



End ClientIp.



(** * Properties of the properties service *)

Module ServiceProperties.
Import PropertiesService.

Ltac by_name :=
  repeat match goal with
         | H : context [String.eqb ?a ?b] |- _ =>
             destruct (String.eqb_spec a b); subst
         | |- context [String.eqb ?a ?b] =>
             destruct (String.eqb_spec a b); subst
         end.

(** X7: the transition table is closed and lets every status stay: only
    the six statuses DRAFT, PENDING, APPROVED, LISTED, SOLD and REMOVED take
    part in a valid transition (an unknown current status allows nothing, no
    known status leads to an unknown one or to a target that is no status
    name), and for each of the six, staying in it is valid. *)
Theorem isValidStatusTransition_closed :
  (forall currentStatus targetStatus,
      isValidStatusTransition currentStatus targetStatus = true ->
      In currentStatus
         ["DRAFT"; "PENDING"; "APPROVED"; "LISTED"; "SOLD"; "REMOVED"]
      /\ In targetStatus
            (map Name
               ["DRAFT"; "PENDING"; "APPROVED"; "LISTED"; "SOLD"; "REMOVED"]))
  /\ (forall currentStatus,
        In currentStatus
           ["DRAFT"; "PENDING"; "APPROVED"; "LISTED"; "SOLD"; "REMOVED"] ->
        isValidStatusTransition currentStatus currentStatus = true).
Proof.
  split.
  - intros c [t|o] H; unfold isValidStatusTransition in H;
      cbn [validTransitions property Js.chain includes existsb] in H;
      repeat match type of H with
             | context [String.eqb ?a ?b] =>
                 destruct (String.eqb_spec a b); subst;
                 cbn [Js.chain includes existsb orb] in H
             end;
      try discriminate; simpl; auto 10.
  - intros c Hin. simpl in Hin.
    repeat destruct Hin as [<- | Hin]; try reflexivity. contradiction.
Qed.

Lemma mapPropertyStatus_names (newStatus : StatusArg) (status : string) :
  mapPropertyStatus newStatus = Name status ->
  In status ["LISTED"; "PENDING"; "SOLD"; "DRAFT"].
Proof.
  destruct newStatus as [[]|printed|]; simpl; intros H; inversion H; auto.
Qed.

Lemma isValidStatusTransition_object (currentStatus printed : string) :
  isValidStatusTransition currentStatus (Object printed) = false.
Proof.
  unfold isValidStatusTransition.
  destruct (property validTransitions currentStatus); reflexivity.
Qed.

(** X8: through [updateStatus] a property in DRAFT or PENDING never gets
    anywhere else: whatever the calls, it is in DRAFT or PENDING afterwards
    (APPROVED, the only way on to LISTED, is the target of no argument); and
    with arguments of the enum a PENDING property stays PENDING. *)
Theorem statusAfter_dead_end :
  (forall newStatuses currentStatus,
      In currentStatus ["DRAFT"; "PENDING"] ->
      In (statusAfter currentStatus newStatuses) ["DRAFT"; "PENDING"])
  /\ (forall newStatuses : list DTOPropertyStatus,
        statusAfter "PENDING" (map Member newStatuses) = "PENDING").
Proof.
  split.
  - induction newStatuses as [|a newStatuses IH]; intros c Hc; [exact Hc|].
    simpl in Hc. destruct Hc as [<- | [<- | []]];
      destruct a as [[]|printed|]; simpl; apply IH; simpl; auto.
  - induction newStatuses as [|m newStatuses IH]; [reflexivity|].
    destruct m; simpl; exact IH.
Qed.

(** X9: a SOLD property stays SOLD whatever [updateStatus] is called with;
    a LISTED property can only stay LISTED or become SOLD (REMOVED is the
    target of no argument); no series of calls moves a property into a
    status other than LISTED, PENDING, SOLD or DRAFT; and an argument that
    names an inherited member of [statusMap], whose target is that member
    and no status name, never passes the transition check, whatever the
    current status, so that such a call leaves the status as it is. *)
Theorem statusAfter_final :
  (forall newStatuses, statusAfter "SOLD" newStatuses = "SOLD")
  /\ (forall newStatuses, In (statusAfter "LISTED" newStatuses) ["LISTED"; "SOLD"])
  /\ (forall newStatuses currentStatus,
        statusAfter currentStatus newStatuses = currentStatus
        \/ In (statusAfter currentStatus newStatuses)
              ["LISTED"; "PENDING"; "SOLD"; "DRAFT"])
  /\ (forall currentStatus printed,
        mapPropertyStatus (Inherited printed) = Object printed
        /\ isValidStatusTransition currentStatus
             (mapPropertyStatus (Inherited printed)) = false)
  /\ (forall currentStatus printed newStatuses,
        statusAfter currentStatus (Inherited printed :: newStatuses)
        = statusAfter currentStatus newStatuses).
Proof.
  assert (Hsold : forall newStatuses, statusAfter "SOLD" newStatuses = "SOLD").
  { induction newStatuses as [|a newStatuses IH]; [reflexivity|].
    destruct a as [[]|printed|]; simpl; exact IH. }
  split; [exact Hsold|]. split; [|split; [|split]].
  - induction newStatuses as [|a newStatuses IH]; [simpl; auto|].
    destruct a as [[]|printed|]; simpl; try exact IH; rewrite Hsold; auto.
  - assert (Hin : forall newStatuses c,
               In c ["LISTED"; "PENDING"; "SOLD"; "DRAFT"] ->
               In (statusAfter c newStatuses) ["LISTED"; "PENDING"; "SOLD"; "DRAFT"]).
    { induction newStatuses as [|a newStatuses IH]; intros c Hc; [exact Hc|].
      cbn [statusAfter].
      destruct (isValidStatusTransition c (mapPropertyStatus a));
        [|apply IH, Hc].
      destruct (mapPropertyStatus a) as [t|o] eqn:Et; [|apply IH, Hc].
      apply IH, (mapPropertyStatus_names a), Et. }
    induction newStatuses as [|a newStatuses IH]; intros c; [now left|].
    cbn [statusAfter].
    destruct (isValidStatusTransition c (mapPropertyStatus a)) eqn:Hv;
      [|apply IH].
    destruct (mapPropertyStatus a) as [t|o] eqn:Et.
    + right. apply Hin, (mapPropertyStatus_names a), Et.
    + now rewrite isValidStatusTransition_object in Hv.
  - intros c printed. split; [reflexivity|].
    apply isValidStatusTransition_object.
  - intros c printed newStatuses. cbn [statusAfter mapPropertyStatus].
    now rewrite isValidStatusTransition_object.
Qed.

Section Operations.

Variables DB Property Raw Num Kind : Type.
Variable prisma : Prisma DB Property Raw Num Kind.

Ltac exec :=
  unfold updateStatus, remove, catch, andThen, send, throw, pure, logger_log,
    logger_error, write;
  cbv zeta.

Ltac got H :=
  rewrite H; cbn [db queries entries negb].

(** X10: [updateStatus] writes only what the workflow allows. A run sends
    the lookup alone, or the lookup and then one update; the update is sent
    only when the lookup found the property and the transition from its
    status to the mapped target status is valid, and it writes that target
    status. *)
Theorem updateStatus_guards_write (id : string) (newStatus : StatusArg)
  (userId : option string) (s : ServiceState DB Raw Num Kind) :
  queries (snd (updateStatus prisma id newStatus userId s))
  = queries s ++ [FindUnique id]
  \/ (exists property d,
         property_findUnique prisma id (db s) = (Returned (Some property), d)
         /\ isValidStatusTransition (status prisma property)
              (mapPropertyStatus newStatus) = true
         /\ queries (snd (updateStatus prisma id newStatus userId s))
            = queries s ++ [FindUnique id;
                            Update id (Data.ofStatus (mapPropertyStatus newStatus))]).
Proof.
  destruct (property_findUnique prisma id (db s)) as [[[p|]|e] d] eqn:H1.
  - destruct (isValidStatusTransition (status prisma p)
                (mapPropertyStatus newStatus)) eqn:Hv.
    + right. exists p, d. split; [reflexivity|]. split; [exact Hv|].
      exec. got H1. got Hv.
      destruct (property_update prisma id (Data.ofStatus (mapPropertyStatus newStatus)) d)
        as [[p'|e] d'];
        [|destruct e]; cbn; now rewrite <- app_assoc.
    + left. exec. got H1. got Hv. reflexivity.
  - left. exec. got H1. reflexivity.
  - left. exec. got H1. destruct e; reflexivity.
Qed.

(** X11: [updateStatus] throws nothing but [NotFoundException] and
    [BadRequestException]. A missing property gives the [NotFoundException]
    that names the id, with nothing written and nothing logged; an error of
    another kind thrown by the lookup is logged and replaced by
    [BadRequestException('Failed to update property status')]. *)
Theorem updateStatus_errors (id : string) (newStatus : StatusArg)
  (userId : option string) (s : ServiceState DB Raw Num Kind) :
  (forall e s',
      updateStatus prisma id newStatus userId s = (Threw e, s') ->
      (exists message, e = NotFoundException message)
      \/ (exists message, e = BadRequestException message))
  /\ (forall d,
        property_findUnique prisma id (db s) = (Returned None, d) ->
        updateStatus prisma id newStatus userId s
        = (Threw (NotFoundException
                    ("Property with ID " ++ id ++ " not found")%string),
           mkServiceState d (queries s ++ [FindUnique id]) (entries s)))
  /\ (forall raw d,
        property_findUnique prisma id (db s) = (Threw (Thrown raw), d) ->
        updateStatus prisma id newStatus userId s
        = (Threw (BadRequestException "Failed to update property status"),
           mkServiceState d (queries s ++ [FindUnique id])
             (entries s
              ++ [Error ("Failed to update property status " ++ id)%string
                        (Thrown raw)]))).
Proof.
  split; [|split].
  - intros e s'.
    destruct (property_findUnique prisma id (db s)) as [[[p|]|e1] d] eqn:H1.
    + destruct (isValidStatusTransition (status prisma p)
                  (mapPropertyStatus newStatus)) eqn:Hv.
      * exec. got H1. got Hv.
        destruct (property_update prisma id (Data.ofStatus (mapPropertyStatus newStatus)) d)
          as [[p'|e2] d']; [|destruct e2]; cbn; intros H; inversion H; eauto.
      * exec. got H1. got Hv. intros H; inversion H; eauto.
    + exec. got H1. intros H; inversion H; eauto.
    + exec. got H1. destruct e1; cbn; intros H; inversion H; eauto.
  - intros d H1. exec. got H1. reflexivity.
  - intros raw d H1. exec. got H1. reflexivity.
Qed.

(** X12: [remove] deletes only what it found. A run sends the lookup alone,
    or the lookup and then one delete, the latter only when the lookup found
    the property; it throws the [NotFoundException] of a missing property
    or else [BadRequestException('Failed to delete property')], nothing
    else; and a run that returns has logged the deletion, once. *)
Theorem remove_guards_delete (id : string) (s : ServiceState DB Raw Num Kind) :
  (queries (snd (remove prisma id s)) = queries s ++ [FindUnique id]
   \/ (exists property d,
          property_findUnique prisma id (db s) = (Returned (Some property), d)
          /\ queries (snd (remove prisma id s))
             = queries s ++ [FindUnique id; Delete id]))
  /\ (forall e s',
        remove prisma id s = (Threw e, s') ->
        (exists message, e = NotFoundException message)
        \/ e = BadRequestException "Failed to delete property")
  /\ (forall s',
        remove prisma id s = (Returned tt, s') ->
        entries s' = entries s ++ [Log ("Property deleted: " ++ id)%string]
        /\ queries s' = queries s ++ [FindUnique id; Delete id]).
Proof.
  destruct (property_findUnique prisma id (db s)) as [[[p|]|e1] d] eqn:H1.
  - destruct (property_delete prisma id d) as [[[]|e2] d'] eqn:H2.
    + split; [|split].
      * right. exists p, d. split; [reflexivity|].
        exec. got H1. got H2. now rewrite <- app_assoc.
      * intros e s'. exec. got H1. got H2. discriminate.
      * intros s'. exec. got H1. got H2. intros H; inversion H; subst s'.
        cbn. now rewrite <- app_assoc.
    + split; [|split].
      * right. exists p, d. split; [reflexivity|].
        exec. got H1. got H2. destruct e2; cbn; now rewrite <- app_assoc.
      * intros e s'. exec. got H1. got H2.
        destruct e2; cbn; intros H; inversion H; eauto.
      * intros s'. exec. got H1. got H2. destruct e2; discriminate.
  - split; [|split].
    + left. exec. got H1. reflexivity.
    + intros e s'. exec. got H1. intros H; inversion H; eauto.
    + intros s'. exec. got H1. discriminate.
  - split; [|split].
    + left. exec. got H1. destruct e1; reflexivity.
    + intros e s'. exec. got H1.
      destruct e1; cbn; intros H; inversion H; eauto.
    + intros s'. exec. got H1. destruct e1; discriminate.
Qed.

(** X15: [update] writes what the DTO carries, for any property that
    exists. The update query names the columns of the fields the DTO has
    and no other, with the address formatted and the status mapped; and it
    is sent whatever the current status of the property is: the transition
    table that guards [updateStatus] is not consulted. *)
Theorem update_writes_unchecked (id : string)
  (updatePropertyDto : Dto.t Num Kind) (s : ServiceState DB Raw Num Kind)
  (existingProperty : Property) (d : DB) :
  property_findUnique prisma id (db s) = (Returned (Some existingProperty), d) ->
  exists data,
    queries (snd (update prisma id updatePropertyDto s))
    = queries s ++ [FindUnique id; Update id data]
    /\ Data.status data
       = Js.chain (Dto.status updatePropertyDto) mapPropertyStatus
    /\ Data.location data
       = Js.chain (Dto.address updatePropertyDto) formatAddress
    /\ Data.title data = Dto.title updatePropertyDto
    /\ Data.description data = Dto.description updatePropertyDto
    /\ Data.price data = Dto.price updatePropertyDto
    /\ Data.bedrooms data = Dto.bedrooms updatePropertyDto
    /\ Data.bathrooms data = Dto.bathrooms updatePropertyDto
    /\ Data.squareFootage data = Dto.areaSqFt updatePropertyDto
    /\ Data.propertyType data = Dto.type updatePropertyDto.
Proof.
  intros H1. eexists. split.
  - unfold update, catch, andThen, send, throw, pure, logger_log,
      logger_error, write.
    cbv zeta. rewrite H1. cbn [db queries entries].
    match goal with
    | |- context [property_update prisma id ?data d] =>
        destruct (property_update prisma id data d) as [[p'|e] d']
    end; [|destruct e]; cbn; now rewrite <- app_assoc.
  - repeat split.
Qed.

End Operations.

Lemma find_store (id status : string) (rows : list Row) (r : Row) :
  find id rows = Some r ->
  find id (store id status rows) = Some (id, status).
Proof.
  induction rows as [|r0 rows IH]; simpl; [discriminate|].
  destruct (String.eqb (fst r0) id) eqn:E; simpl.
  - intros _. now rewrite String.eqb_refl.
  - rewrite E. exact IH.
Qed.

Lemma updateStatus_memory (id c : string) (newStatus : StatusArg)
  (s : ServiceState (list Row) string Z string) :
  find id (db s) = Some (id, c) ->
  find id (db (snd (updateStatus memory id newStatus None s)))
  = Some (id, statusAfter c [newStatus]).
Proof.
  intros H.
  unfold updateStatus, catch, andThen, send, throw, pure, logger_log, write.
  cbn [memory property_findUnique property_update status]. rewrite H. cbn [db snd negb].
  cbn [statusAfter].
  destruct (isValidStatusTransition c (mapPropertyStatus newStatus)) eqn:Hv.
  - destruct (mapPropertyStatus newStatus) as [t|o].
    + cbn [negb db Data.status Data.ofStatus]. rewrite H. cbn.
      now apply find_store with (r := (id, c)).
    + now rewrite isValidStatusTransition_object in Hv.
  - cbn. exact H.
Qed.

(** X13: calls of [updateStatus] compose as the workflow says. On a
    database that stores what it is told, a property that has status [c]
    has, after any series of [updateStatus] calls for it, the status
    reached from [c] by taking each call's target when the transition to it
    is valid and staying put otherwise. *)
Theorem updateStatusAll_memory (newStatuses : list StatusArg)
  (id c : string) (s : ServiceState (list Row) string Z string) :
  find id (db s) = Some (id, c) ->
  find id (db (updateStatusAll memory id newStatuses s))
  = Some (id, statusAfter c newStatuses).
Proof.
  revert c s; induction newStatuses as [|a newStatuses IH]; intros c s H.
  - exact H.
  - cbn [updateStatusAll].
    pose proof (updateStatus_memory id c a s H) as Hstep.
    cbn [statusAfter] in Hstep |- *.
    destruct (isValidStatusTransition c (mapPropertyStatus a));
      [destruct (mapPropertyStatus a)|]; exact (IH _ _ Hstep).
Qed.

Lemma join_infix (sep part : string) (parts : list string) :
  In part parts ->
  exists pre post, join sep parts = (pre ++ part ++ post)%string.
Proof.
  unfold join. induction parts as [|x parts IH]; [contradiction|].
  intros [-> | Hin].
  - destruct parts as [|y parts].
    + exists "", "". simpl. now rewrite string_append_empty.
    + exists "", (sep ++ String.concat sep (y :: parts))%string. reflexivity.
  - destruct (IH Hin) as (pre & post & E).
    destruct parts as [|y parts]; [contradiction|].
    exists (x ++ sep ++ pre)%string, post.
    change (String.concat sep (x :: y :: parts))
      with (x ++ sep ++ String.concat sep (y :: parts))%string.
    rewrite E. now rewrite !string_append_assoc.
Qed.

Lemma filterBoolean_keeps (part : string) (parts : list (option string)) :
  In (Some part) parts -> part <> "" -> In part (filterBoolean parts).
Proof.
  intros Hin Hne. induction parts as [|p parts IH]; [contradiction|].
  destruct Hin as [-> | Hin].
  - destruct part; [now elim Hne|]. now left.
  - destruct p as [[|c r]|]; simpl; auto.
Qed.

Lemma filterBoolean_nil (parts : list (option string)) :
  filterBoolean parts = [] <->
  (forall part, In (Some part) parts -> part = "").
Proof.
  induction parts as [|p parts IH]; simpl.
  - split; [intros _ part []|reflexivity].
  - destruct p as [[|c r]|].
    + rewrite IH. split.
      * intros H part [E | Hin]; [now inversion E|now apply H].
      * intros H part Hin. apply H. now right.
    + split; [discriminate|]. intros H.
      specialize (H (String c r) (or_introl eq_refl)). discriminate.
    + rewrite IH. split.
      * intros H part [E | Hin]; [discriminate|now apply H].
      * intros H part Hin. apply H. now right.
Qed.

Lemma filterBoolean_nonempty (parts : list (option string)) :
  Forall (fun part => part <> "") (filterBoolean parts).
Proof.
  induction parts as [|[[|c r]|] parts IH]; simpl; auto.
  constructor; [discriminate|exact IH].
Qed.

(** X14: [formatAddress] keeps every part that is there and nothing of
    those that are not. Each non-empty part of the address occurs in the
    formatted location, and the location is the empty string exactly when
    every part is missing or empty. *)
Theorem formatAddress_parts (address : Address) :
  (forall part,
      In (Some part) [street address; city address; state address;
                      postalCode address; country address] ->
      part <> "" ->
      exists pre post, formatAddress address = (pre ++ part ++ post)%string)
  /\ (formatAddress address = "" <->
      forall part,
        In (Some part) [street address; city address; state address;
                        postalCode address; country address] ->
        part = "").
Proof.
  unfold formatAddress. split.
  - intros part Hin Hne. apply join_infix.
    now apply filterBoolean_keeps.
  - rewrite <- filterBoolean_nil.
    pose proof (filterBoolean_nonempty
                  [street address; city address; state address;
                   postalCode address; country address]) as Hne.
    destruct (filterBoolean _) as [|x parts].
    + split; reflexivity.
    + split; [|discriminate]. intros E. exfalso.
      inversion Hne as [|? ? Hx _]; subst.
      destruct x as [|c r]; [now elim Hx|].
      unfold join in E. destruct parts; discriminate.
Qed.

End ServiceProperties.

Lemma isValidStatusTransition_closed_witness :
  PropertiesService.isValidStatusTransition "LISTED"
    (PropertiesService.Name "SOLD") = true
  /\ In "LISTED" ["DRAFT"; "PENDING"; "APPROVED"; "LISTED"; "SOLD"; "REMOVED"]
  /\ In (PropertiesService.Name "SOLD")
        (map PropertiesService.Name
           ["DRAFT"; "PENDING"; "APPROVED"; "LISTED"; "SOLD"; "REMOVED"])
  /\ PropertiesService.isValidStatusTransition "REMOVED"
       (PropertiesService.Name "REMOVED") = true.
Proof.
  destruct ServiceProperties.isValidStatusTransition_closed as (Hclosed & Hstay).
  split; [reflexivity|].
  destruct (Hclosed "LISTED" (PropertiesService.Name "SOLD") eq_refl)
    as (Hc & Ht).
  split; [exact Hc|]. split; [exact Ht|].
  apply Hstay. simpl. auto 10.
Defined.

Lemma statusAfter_dead_end_witness :
  In "DRAFT" ["DRAFT"; "PENDING"]
  /\ In (PropertiesService.statusAfter "DRAFT"
           [PropertiesService.Member PropertiesService.PENDING;
            PropertiesService.Member PropertiesService.AVAILABLE;
            PropertiesService.Stray;
            PropertiesService.Member PropertiesService.SOLD])
        ["DRAFT"; "PENDING"].
Proof.
  assert (H : In "DRAFT" ["DRAFT"; "PENDING"]) by (simpl; auto).
  split; [exact H|].
  exact (proj1 ServiceProperties.statusAfter_dead_end _ "DRAFT" H).
Defined.

Lemma updateStatus_errors_witness :
  PropertiesService.updateStatus PropertiesService.memory "prop_404"
    (PropertiesService.Member PropertiesService.SOLD) None
    (PropertiesService.fresh [("prop_123", "LISTED")])
  = (Threw (PropertiesService.NotFoundException
              "Property with ID prop_404 not found"),
     PropertiesService.mkServiceState [("prop_123", "LISTED")]
       [PropertiesService.FindUnique "prop_404"] []).
Proof.
  exact (proj1 (proj2 (ServiceProperties.updateStatus_errors
                         (list PropertiesService.Row) PropertiesService.Row
                         string Z string PropertiesService.memory "prop_404"
                         (PropertiesService.Member PropertiesService.SOLD)
                         None
                         (PropertiesService.fresh [("prop_123", "LISTED")])))
           _ eq_refl).
Defined.

Lemma remove_guards_delete_witness :
  PropertiesService.entries
    (snd (PropertiesService.remove PropertiesService.memory "prop_123"
            (PropertiesService.fresh [("prop_123", "LISTED")])))
  = [PropertiesService.Log "Property deleted: prop_123"]
  /\ PropertiesService.queries
       (snd (PropertiesService.remove PropertiesService.memory "prop_123"
               (PropertiesService.fresh [("prop_123", "LISTED")])))
     = [PropertiesService.FindUnique "prop_123";
        PropertiesService.Delete "prop_123"].
Proof.
  exact (proj2 (proj2 (ServiceProperties.remove_guards_delete
                         (list PropertiesService.Row) PropertiesService.Row
                         string Z string PropertiesService.memory "prop_123"
                         (PropertiesService.fresh [("prop_123", "LISTED")])))
           _ eq_refl).
Defined.

Lemma updateStatusAll_memory_witness :
  PropertiesService.find "prop_123"
    (PropertiesService.db
       (PropertiesService.updateStatusAll PropertiesService.memory "prop_123"
          [PropertiesService.Member PropertiesService.AVAILABLE;
           PropertiesService.Member PropertiesService.RENTED;
           PropertiesService.Member PropertiesService.AVAILABLE]
          (PropertiesService.fresh [("prop_123", "APPROVED")])))
  = Some ("prop_123", "SOLD")
  /\ PropertiesService.find "prop_123"
       (PropertiesService.db
          (PropertiesService.updateStatusAll PropertiesService.memory
             "prop_123"
             [PropertiesService.Inherited "function Object() { [native code] }"]
             (PropertiesService.fresh [("prop_123", "PENDING")])))
     = Some ("prop_123", "PENDING")
  /\ PropertiesService.find "prop_123"
       (PropertiesService.db
          (PropertiesService.updateStatusAll PropertiesService.memory
             "prop_123" [PropertiesService.Stray]
             (PropertiesService.fresh [("prop_123", "PENDING")])))
     = Some ("prop_123", "DRAFT").
Proof.
  split; [|split].
  - exact (ServiceProperties.updateStatusAll_memory
             [PropertiesService.Member PropertiesService.AVAILABLE;
              PropertiesService.Member PropertiesService.RENTED;
              PropertiesService.Member PropertiesService.AVAILABLE]
             "prop_123" "APPROVED"
             (PropertiesService.fresh [("prop_123", "APPROVED")]) eq_refl).
  - exact (ServiceProperties.updateStatusAll_memory
             [PropertiesService.Inherited "function Object() { [native code] }"]
             "prop_123" "PENDING"
             (PropertiesService.fresh [("prop_123", "PENDING")]) eq_refl).
  - exact (ServiceProperties.updateStatusAll_memory
             [PropertiesService.Stray]
             "prop_123" "PENDING"
             (PropertiesService.fresh [("prop_123", "PENDING")]) eq_refl).
Defined.

(** A call of [updateStatus] with ['constructor'] for a PENDING property:
    the target is the inherited [Object], the transition check fails, the
    call throws and no update is sent. *)
Example updateStatus_constructor :
  PropertiesService.updateStatus PropertiesService.memory "prop_123"
    (PropertiesService.Inherited "function Object() { [native code] }") None
    (PropertiesService.fresh [("prop_123", "PENDING")])
  = (Threw (PropertiesService.BadRequestException
              "Invalid status transition from PENDING to function Object() { [native code] }"),
     PropertiesService.mkServiceState [("prop_123", "PENDING")]
       [PropertiesService.FindUnique "prop_123"] []).
Proof. reflexivity. Qed.

(** [update] with the same value skips the check: the query is sent, the
    database refuses it, and the row is as it was. *)
Example update_constructor :
  PropertiesService.update PropertiesService.memory "prop_123"
    (PropertiesService.Dto.make None None None None
       (Some (PropertiesService.Inherited
                "function Object() { [native code] }"))
       None None None None)
    (PropertiesService.fresh [("prop_123", "PENDING")])
  = (Threw (PropertiesService.BadRequestException "Failed to update property"),
     PropertiesService.mkServiceState [("prop_123", "PENDING")]
       [PropertiesService.FindUnique "prop_123";
        PropertiesService.Update "prop_123"
          (PropertiesService.Data.make None None None None
             (Some (PropertiesService.Object
                      "function Object() { [native code] }"))
             None None None None)]
       [PropertiesService.Error "Failed to update property prop_123"
          (PropertiesService.Thrown "PrismaClientValidationError")]).
Proof. reflexivity. Qed.

Lemma formatAddress_parts_witness :
  exists pre post,
    PropertiesService.formatAddress
      (PropertiesService.mkAddress (Some "123 Test St") (Some "Test City")
         None (Some "") (Some "Test Country"))
    = (pre ++ "Test City" ++ post)%string.
Proof.
  apply (proj1 (ServiceProperties.formatAddress_parts
                  (PropertiesService.mkAddress (Some "123 Test St")
                     (Some "Test City") None (Some "") (Some "Test Country")))).
  - simpl. auto.
  - discriminate.
Defined.

Example formatAddress_test :
  PropertiesService.formatAddress
    (PropertiesService.mkAddress (Some "123 Test St") (Some "Test City")
       (Some "Test State") (Some "12345") (Some "Test Country"))
  = "123 Test St, Test City, Test State, 12345, Test Country".
Proof. reflexivity. Qed.

Lemma update_writes_unchecked_witness :
  PropertiesService.isValidStatusTransition "SOLD"
    (PropertiesService.Name "LISTED") = false
  /\ exists data,
       PropertiesService.queries
         (snd (PropertiesService.update PropertiesService.memory "prop_123"
                 (PropertiesService.Dto.make None None (Some 600000%Z) None
                    (Some (PropertiesService.Member PropertiesService.AVAILABLE))
                    None None None None)
                 (PropertiesService.fresh [("prop_123", "SOLD")])))
       = [PropertiesService.FindUnique "prop_123";
          PropertiesService.Update "prop_123" data]
       /\ PropertiesService.Data.status data
          = Some (PropertiesService.Name "LISTED")
       /\ PropertiesService.Data.price data = Some 600000%Z
       /\ PropertiesService.Data.title data = None.
Proof.
  split; [reflexivity|].
  destruct (ServiceProperties.update_writes_unchecked
              (list PropertiesService.Row) PropertiesService.Row string Z
              string PropertiesService.memory "prop_123"
              (PropertiesService.Dto.make None None (Some 600000%Z) None
                 (Some (PropertiesService.Member PropertiesService.AVAILABLE))
                 None None None None)
              (PropertiesService.fresh [("prop_123", "SOLD")])
              ("prop_123", "SOLD") [("prop_123", "SOLD")] eq_refl)
    as (data & Hq & Hs & _ & Ht & _ & Hp & _).
  exists data. repeat split; assumption.
Defined.

Section SkippedChecks.

Variables W Err : Type.
Variable env : Env W Err.
Variable req : Request.

Local Abbreviation ip := (getClientIp req).
Local Abbreviation ua := (Js.or_default (user_agent (headers req)) "").

(** X16: an error in one check skips the checks after it. When a stage
    raises, the services have been called up to that stage and no further,
    and the request is forwarded: after an error of the blocklist check
    neither the traffic monitor nor the ddos-block state is consulted, and
    after an error of the traffic monitor the ddos-block state is not
    consulted. *)
Theorem use_error_skips_checks (s : State W Err) (stage : Stage) (e : Err) :
  Raises env req s stage e ->
  exists s',
    use env req s = (Returned tt, s')
    /\ forwarded s' = forwarded s ++ [mkForwarded (security s) (res s')]
    /\ calls s' = calls s ++ firstn (callsMade stage) (pipeline req)
    /\ (stage = BlocklistCheck ->
        calls s' = calls s ++ [CallShouldBlockRequest ip ua (path req)])
    /\ (stage = TrafficMonitor ->
        calls s' = calls s ++ [CallShouldBlockRequest ip ua (path req);
                               CallMonitorTraffic ip (path req) ua]).
Proof.
  intros HR.
  destruct (use_raises W Err env req s stage e HR) as (w & E).
  eexists. split; [exact E|]. cbn [forwarded calls res].
  repeat split; intros ->; reflexivity.
Qed.

End SkippedChecks.

Lemma use_error_skips_checks_witness :
  Raises Node.monitorDown Node.proxied Node.start TrafficMonitor "ECONNREFUSED"
  /\ exists s',
       use Node.monitorDown Node.proxied Node.start = (Returned tt, s')
       /\ forwarded s' = [mkForwarded None (res s')]
       /\ calls s'
          = [CallShouldBlockRequest "203.0.113.7" "Mozilla/5.0"
               "/api/properties";
             CallMonitorTraffic "203.0.113.7" "/api/properties" "Mozilla/5.0"].
Proof.
  assert (HR : Raises Node.monitorDown Node.proxied Node.start TrafficMonitor
                 "ECONNREFUSED").
  { eapply RaisesTrafficMonitor; reflexivity. }
  split; [exact HR|].
  destruct (use_error_skips_checks Z string Node.monitorDown Node.proxied
              Node.start _ _ HR)
    as (s' & E & Hf & _ & _ & Hc).
  exists s'. split; [exact E|]. split; [exact Hf|]. exact (Hc eq_refl).
Defined.
